(** * dcc-toolbox / tool_dock: signature introspection, dynamic tool registry,
      and tool-dock settings

    A shallow embedding of the logic of [tool_dock/tool_dock_utils.py]
    (and of the identical [get_func_arguments] of
    [dcc_toolbox/dcc_toolbox_utils.py]).  The module is Python 2 code (it
    uses [print] statements), so dictionaries' [items()] and [keys()] are
    list snapshots.  [os.path] is [posixpath].  Qt widgets and dialogs are
    left out; what remains is

    - [get_func_arguments] and its caller [auto_populate_parameters],
    - [LocalConstants] (the registry [lk]) with its folder scan,
    - [make_class_from_script] and the [run] action of a generated class,
    - [ToolDockSettings.get_value], [save_tooldock_settings] and
      [load_tooldock_settings]. *)

From Stdlib Require Import ZArith Ascii String.
From stdpp Require Import base option list strings gmap sorting.

Open Scope string_scope.
Open Scope list_scope.

(* ===================================================================== *)
(** * Python values *)
(* ===================================================================== *)

(** The part of Python's object universe the modelled functions touch.
    [PObj] stands for an object compared by identity (a class, a function,
    a module), named by its qualified name.  Floats are left out. *)
#[warnings="-register-all"]
Inductive pyval : Type :=
  | PNone
  | PBool (b : bool)
  | PInt (z : Z)
  | PStr (s : string)
  | PTuple (items : list pyval)
  | PList (items : list pyval)
  | PObj (name : string).

(** [class RequiresValueType(object)]: the class object itself is the
    marker that [get_func_arguments] stores. *)
Definition RequiresValueType : pyval := PObj "RequiresValueType".

(** Python's [==].  [bool] is a subclass of [int], so [True == 1];
    sequences compare element-wise within their own type; objects without
    [__eq__] compare by identity. *)
Fixpoint py_eq (a b : pyval) {struct a} : bool :=
  let fix seq_eq (xs ys : list pyval) {struct xs} : bool :=
    match xs, ys with
    | [], [] => true
    | x :: xs', y :: ys' => py_eq x y && seq_eq xs' ys'
    | _, _ => false
    end in
  match a, b with
  | PNone, PNone => true
  | PBool x, PBool y => Bool.eqb x y
  | PBool x, PInt y => Z.eqb (Z.b2z x) y
  | PInt x, PBool y => Z.eqb x (Z.b2z y)
  | PInt x, PInt y => Z.eqb x y
  | PStr x, PStr y => String.eqb x y
  | PTuple xs, PTuple ys => seq_eq xs ys
  | PList xs, PList ys => seq_eq xs ys
  | PObj x, PObj y => String.eqb x y
  | _, _ => false
  end.

(** [x in (t1, t2, ...)]: some element is [==] to [x]. *)
Definition py_in (x : pyval) (candidates : list pyval) : bool :=
  existsb (fun c => py_eq x c) candidates.


(* ===================================================================== *)
(** * Python string methods *)
(* ===================================================================== *)

(** [s.startswith(p)]. *)
Definition startswith (s p : string) : bool := String.prefix p s.

(** [s.endswith(suffix)]: [suffix] is [s] or a suffix of the tail of [s]. *)
Fixpoint endswith (s suffix : string) : bool :=
  if String.eqb s suffix then true
  else match s with
       | EmptyString => false
       | String _ s' => endswith s' suffix
       end.

(** [s.replace(old, new)] for a non-empty [old]: scanning from the left,
    every occurrence of [old] is replaced and the scan resumes after it;
    [skip] counts the characters of a replaced occurrence still to pass. *)
Fixpoint replace_from (old new : string) (skip : nat) (s : string) : string :=
  match s with
  | EmptyString => EmptyString
  | String c s' =>
      match skip with
      | S n => replace_from old new n s'
      | O =>
          if String.prefix old s
          then new +:+ replace_from old new (String.length old - 1) s'
          else String c (replace_from old new 0 s')
      end
  end.

(** [s.replace("", new)] puts [new] before every character and at the end. *)
Fixpoint replace_empty (new : string) (s : string) : string :=
  match s with
  | EmptyString => new
  | String c s' => new +:+ String c (replace_empty new s')
  end.

Definition py_replace (s old new : string) : string :=
  match old with
  | EmptyString => replace_empty new s
  | String _ _ => replace_from old new 0 s
  end.

(** [old in s]: [old] occurs in [s] at some position. *)
Fixpoint occurs_in (old s : string) : bool :=
  String.prefix old s
  || match s with
     | EmptyString => false
     | String _ s' => occurs_in old s'
     end.

(** [s.split(sep)] for a one-character separator. *)
Fixpoint split_on (sep : ascii) (s : string) : list string :=
  match s with
  | EmptyString => [EmptyString]
  | String c s' =>
      if Ascii.eqb c sep then EmptyString :: split_on sep s'
      else match split_on sep s' with
           | piece :: pieces => String c piece :: pieces
           | [] => [String c EmptyString]
           end
  end.

(** [s.rfind(c)] for a character [c]: the highest index of [c] in [s], as
    an option and as Python's integer ([-1] when [c] does not occur). *)
Fixpoint rfind_opt (s : string) (c : ascii) : option nat :=
  match s with
  | EmptyString => None
  | String x s' =>
      match rfind_opt s' c with
      | Some i => Some (S i)
      | None => if Ascii.eqb x c then Some 0%nat else None
      end
  end.

Definition rfind (s : string) (c : ascii) : Z :=
  match rfind_opt s c with
  | Some i => Z.of_nat i
  | None => (-1)%Z
  end.

(** The slices [s[i:]] and [s[:i]] for an index [i ≥ 0]. *)
Fixpoint str_drop (n : nat) (s : string) : string :=
  match n, s with
  | O, _ => s
  | S n', String _ s' => str_drop n' s'
  | S _, EmptyString => EmptyString
  end.

Fixpoint str_take (n : nat) (s : string) : string :=
  match n, s with
  | O, _ => EmptyString
  | S n', String c s' => String c (str_take n' s')
  | S _, EmptyString => EmptyString
  end.

Definition slice_from (s : string) (i : Z) : string := str_drop (Z.to_nat i) s.
Definition slice_to (s : string) (i : Z) : string := str_take (Z.to_nat i) s.

(* ===================================================================== *)
(** * [os.path] (posixpath) *)
(* ===================================================================== *)

(** [os.path.basename(p)]: [i = p.rfind('/') + 1; return p[i:]]. *)
Definition basename (p : string) : string :=
  let i := (rfind p "/" + 1)%Z in
  slice_from p i.

(** The loop of [genericpath._splitext]: is some character of
    [p[filenameIndex:dotIndex]] not a dot? *)
Fixpoint has_non_dot (characters : string) : bool :=
  match characters with
  | EmptyString => false
  | String c rest => if Ascii.eqb c "." then has_non_dot rest else true
  end.

(** [os.path.splitext(p)]: the extension starts at the last dot, if that
    dot comes after the last slash and after a character of the file name
    that is not a dot. *)
Definition splitext (p : string) : string * string :=
  let sepIndex := rfind p "/" in
  let dotIndex := rfind p "." in
  if (sepIndex <? dotIndex)%Z then
    let filenameIndex := (sepIndex + 1)%Z in
    if has_non_dot (slice_to (slice_from p filenameIndex) (dotIndex - filenameIndex))
    then (slice_to p dotIndex, slice_from p dotIndex)
    else (p, EmptyString)
  else (p, EmptyString).

(** [os.path.join(a, b)]. *)
Definition join (a b : string) : string :=
  if startswith b "/" then b
  else if String.eqb a "" || endswith a "/" then a +:+ b
  else a +:+ "/" +:+ b.

(* ===================================================================== *)
(** * [collections.OrderedDict] *)
(* ===================================================================== *)

(** An ordered dictionary is the list of its items in insertion order. *)
Abbreviation odict := (list (string * pyval)).

(** [d[k] = v]: an existing key keeps its position, a new key goes last. *)
Fixpoint od_set (d : odict) (k : string) (v : pyval) : odict :=
  match d with
  | [] => [(k, v)]
  | (k', v') :: d' =>
      if decide (k = k') then (k, v) :: d' else (k', v') :: od_set d' k v
  end.

(** [d.pop(k)] for a key of [d]; the source only pops a key it has just
    read from [d]. *)
Fixpoint od_pop (d : odict) (k : string) : odict :=
  match d with
  | [] => []
  | (k', v') :: d' => if decide (k = k') then d' else (k', v') :: od_pop d' k
  end.

Definition od_keys (d : odict) : list string := d.*1.
Definition od_values (d : odict) : list pyval := d.*2.


(* ===================================================================== *)
(** * Signature introspection: [get_func_arguments] *)
(* ===================================================================== *)

(** What [inspect.getargspec] returns: the positional parameter names, the
    names of [*args] and [**kwargs] if any, and the tuple of default values
    ([None] when there is none). *)
Record ArgSpec : Type := {
  args : list string;
  varargs : option string;
  keywords : option string;
  defaults : option (list pyval)
}.

(** A callable is a Python function or method, which carries a parameter
    list, or a native callable, on which [inspect.getargspec] raises
    [TypeError]. *)
Inductive callable : Type :=
  | PyFunction (spec : ArgSpec)
  | NativeCallable.

Definition getargspec (func : callable) : option ArgSpec :=
  match func with
  | PyFunction spec => Some spec
  | NativeCallable => None
  end.

(** The dictionary after the first loop of [get_func_arguments] when the
    names are distinct: every name marked as required. *)
Definition required_items (names : list string) : odict :=
  (fun n => (n, RequiresValueType)) <$> names.

(** [if arg_spec.defaults:] holds for a non-empty tuple only. *)
Definition defaults_truthy (ds : option (list pyval)) : bool :=
  match ds with
  | Some (_ :: _) => true
  | _ => false
  end.

(** The body of the second loop: [parameter_dict[param_key] = param_value]
    for a pair [(param_value, param_key)] of the [zip]. *)
Definition fill_in_default (parameter_dict : odict) (pair : pyval * string) : odict :=
  let '(param_value, param_key) := pair in
  od_set parameter_dict param_key param_value.

(** [get_func_arguments(func)]; [None] is the [TypeError] of [inspect]. *)
Definition get_func_arguments (func : callable) : option odict :=
  match getargspec func with
  | None => None
  | Some arg_spec =>
      let parameter_dict :=
        foldl (fun d param_name => od_set d param_name RequiresValueType)
              [] (args arg_spec) in
      if defaults_truthy (defaults arg_spec) then
        Some (foldl fill_in_default parameter_dict
                    (zip (reverse (default [] (defaults arg_spec)))
                         (reverse (od_keys parameter_dict))))
      else Some parameter_dict
  end.

(** The body of the loop of [auto_populate_parameters].  The loop runs
    over the snapshot [run_arguments.items()] and updates [run_arguments]
    itself. *)
Definition auto_populate_step (run_arguments : odict) (item : string * pyval) : odict :=
  let '(param_name, default_value) := item in
  if decide (param_name = "self") then od_pop run_arguments param_name
  else
    let is_required := py_eq default_value RequiresValueType in
    if is_required then od_set run_arguments param_name (PStr "")
    else run_arguments.

(** What a call of [auto_populate_parameters] does: [inspect] raises
    [TypeError], or no form is generated (the function returns early, or
    nothing is left after the loop), or [param_grid.from_data] gets the
    data. *)
Inductive populate_outcome : Type :=
  | PopulateTypeError
  | NoForm
  | FormFrom (data : odict).

Definition auto_populate_parameters (run : callable) : populate_outcome :=
  match get_func_arguments run with
  | None => PopulateTypeError
  | Some run_arguments =>
      match run_arguments with
      | [] => NoForm
      | _ :: _ =>
          match foldl auto_populate_step run_arguments run_arguments with
          | [] => NoForm
          | data => FormFrom data
          end
      end
  end.

(** The form data in closed form: the entry named [self] dropped, every
    value that compares equal to the marker replaced by [str()]. *)
Definition form_entry (item : string * pyval) : string * pyval :=
  (item.1, if py_eq item.2 RequiresValueType then PStr "" else item.2).

Definition form_data (run_arguments : odict) : odict :=
  form_entry <$> filter (fun item => item.1 ≠ "self") run_arguments.

(* ===================================================================== *)
(** * Settings: [ToolDockSettings] *)
(* ===================================================================== *)

(** [type(x)] for the values above; the types of classes, functions and
    modules are not told apart. *)
Inductive pytype : Type :=
  | TNoneType | TBool | TInt | TStr | TTuple | TList | TObject.

Definition py_type (x : pyval) : pytype :=
  match x with
  | PNone => TNoneType
  | PBool _ => TBool
  | PInt _ => TInt
  | PStr _ => TStr
  | PTuple _ => TTuple
  | PList _ => TList
  | PObj _ => TObject
  end.

(** A [QSettings] object is the finite map from its keys to the values
    [value()] returns for them.  The text encoding of the INI file is Qt's
    and is not modelled. *)
Abbreviation settings_store := (gmap string pyval).

(** [QSettings.value(key, defaultValue)]. *)
Definition value (settings : settings_store) (key : string) (defaultValue : pyval) : pyval :=
  default defaultValue (settings !! key).

(** [QSettings.setValue(key, value)]. *)
Definition setValue (settings : settings_store) (key : string) (v : pyval) : settings_store :=
  <[key := v]> settings.

(** [QSettings.allKeys()]: Qt keeps the keys in a sorted map. *)
Definition allKeys (settings : settings_store) : list string :=
  merge_sort String.le (elements (dom settings)).

(** The tuple [("true", "True", "1", 1, True)] of [get_value]. *)
Definition true_representations : list pyval :=
  [PStr "true"; PStr "True"; PStr "1"; PInt 1; PBool true].

(** [ToolDockSettings.get_value(key, default=None)]. *)
Definition get_value (settings : settings_store) (key : string) (default_ : pyval) : pyval :=
  let data_type :=
    match default_ with
    | PNone => None
    | _ => Some (py_type default_)
    end in
  let settings_val := value settings key default_ in
  match data_type with
  | Some TBool => PBool (py_in settings_val true_representations)
  | _ => settings_val
  end.

(** The settings files on disk, by path: each file as the [QSettings]
    object opened on it holds it. *)
Abbreviation settings_files := (gmap string (gmap string pyval)).

(** [ToolDockSettings(path, QSettings.IniFormat)]: the content of the file,
    empty when there is no such file. *)
Definition open_settings (disk : settings_files) (path : string) : settings_store :=
  default ∅ (disk !! path).

(** The body of the loop of [save_tooldock_settings]. *)
Definition save_key (settings : settings_store) (current_tooldock : string)
    (out_settings : settings_store) (setting_key : string) : settings_store :=
  if negb (startswith setting_key current_tooldock) then out_settings
  else setValue out_settings setting_key (get_value settings setting_key PNone).

(** [save_tooldock_settings(settings, current_tooldock, settings_path)].
    [browsed] is what [browse_for_settings_path()] returns when it is
    called ([None] when the dialog is cancelled).  The result is the disk
    afterwards and the returned value ([None] when nothing is saved). *)
Definition save_tooldock_settings (disk : settings_files) (browsed : option string)
    (settings : settings_store) (current_tooldock : string)
    (settings_path : option string) : settings_files * option string :=
  let settings_path :=
    match settings_path with
    | None => browsed
    | Some p => Some p
    end in
  match settings_path with
  | None => (disk, None)
  | Some EmptyString => (disk, None)
  | Some path =>
      let out_settings := open_settings disk path in
      let out_settings :=
        foldl (save_key settings current_tooldock) out_settings (allKeys settings) in
      let out_settings := setValue out_settings "tooldock" (PStr current_tooldock) in
      (<[path := out_settings]> disk, Some path)
  end.

(** The [source_settings] argument of [load_tooldock_settings]: nothing, a
    path, or a [ToolDockSettings] object. *)
Inductive settings_source : Type :=
  | NoSource
  | SourcePath (path : string)
  | SourceObject (settings : settings_store).

(** What a call of [load_tooldock_settings] does: it returns [None]
    without loading, raises [TypeError] (the [tooldock] key holds no
    string, so [startswith] refuses it; a tuple of prefixes, which
    [startswith] takes as well, is counted with the other non-strings), or
    returns [True] with the target settings updated. *)
Inductive load_outcome : Type :=
  | LoadNothing
  | LoadTypeError
  | Loaded (target_settings : settings_store).

(** The body of the loop of [load_tooldock_settings]. *)
Definition load_key (source_settings : settings_store) (settings_tooldock target_tooldock : string)
    (target_settings : settings_store) (setting_key : string) : settings_store :=
  if negb (startswith setting_key settings_tooldock) then target_settings
  else
    let key := py_replace setting_key settings_tooldock target_tooldock in
    setValue target_settings key (get_value source_settings setting_key PNone).

Definition load_tooldock_settings (disk : settings_files) (browsed : option string)
    (target_settings : settings_store) (target_tooldock : string)
    (source_settings : settings_source) : load_outcome :=
  let source_settings :=
    match source_settings with
    | NoSource =>
        match browsed with
        | None => NoSource
        | Some p => SourcePath p
        end
    | other => other
    end in
  let opened :=
    match source_settings with
    | NoSource => None
    | SourcePath EmptyString => None
    | SourcePath path => Some (open_settings disk path)
    | SourceObject settings => Some settings
    end in
  match opened with
  | None => LoadNothing
  | Some source_settings =>
      match get_value source_settings "tooldock" PNone with
      | PStr settings_tooldock =>
          Loaded (foldl (load_key source_settings settings_tooldock target_tooldock)
                        target_settings (allKeys source_settings))
      | _ =>
          match allKeys source_settings with
          | [] => Loaded target_settings
          | _ :: _ => LoadTypeError
          end
      end
  end.

(* ===================================================================== *)
(** * The file system seen by the folder scan *)
(* ===================================================================== *)

(** A directory lists its entries in the order of [os.listdir]. *)
#[warnings="-register-all"]
Inductive fs_node : Type :=
  | FsFile
  | FsDir (entries : list (string * fs_node)).

(** The configured folders that exist, each with its tree. *)
Abbreviation file_system := (gmap string fs_node).

(** [os.path.exists(path)] for a configured folder. *)
Definition path_exists (fs : file_system) (path : string) : bool :=
  bool_decide (is_Some (fs !! path)).

Definition is_dir (n : fs_node) : bool :=
  match n with FsDir _ => true | FsFile => false end.

(** [os.walk(top)], top-down: the triple of a directory, then the walks of
    its sub-directories in listing order. *)
Fixpoint walk_node (top : string) (n : fs_node) {struct n}
    : list (string * list string * list string) :=
  match n with
  | FsFile => []
  | FsDir entries =>
      let dirs := (filter (fun e => is_dir e.2 = true) entries).*1 in
      let nondirs := (filter (fun e => is_dir e.2 = false) entries).*1 in
      let fix walk_entries (es : list (string * fs_node)) {struct es} :=
        match es with
        | [] => []
        | (name, child) :: es' => walk_node (join top name) child ++ walk_entries es'
        end in
      (top, dirs, nondirs) :: walk_entries entries
  end.

Definition walk (fs : file_system) (top : string)
    : list (string * list string * list string) :=
  match fs !! top with
  | Some n => walk_node top n
  | None => []
  end.

(** [get_paths_in_folder(root_folder, extension_filter)], the generator
    run to its end. *)
Definition get_paths_in_folder (fs : file_system) (root_folder extension_filter : string)
    : list string :=
  '(folder, _, file_names) ← walk fs root_folder;
  file_name ← file_names;
  if endswith file_name extension_filter then [join folder file_name] else [].

(* ===================================================================== *)
(** * The registry [LocalConstants] *)
(* ===================================================================== *)

(** The class [make_class_from_script] builds, by its three class
    attributes; its [run] method is [run] below. *)
Record DynamicClass : Type := {
  TOOL_NAME : string;
  TOOL_TIP : string;
  SCRIPT_PATH : string
}.

Definition make_class_from_script (script_path tool_name : string) : DynamicClass :=
  {| TOOL_NAME := tool_name; TOOL_TIP := script_path; SCRIPT_PATH := script_path |}.

(** The attributes of [LocalConstants] that change or are configured. *)
Record LocalConstants : Type := {
  dynamic_classes_generated : bool;
  dynamic_classes : gmap string DynamicClass;
  script_folders : string
}.

Definition env_script_folders : string := "TOOL_DOCK_SCRIPT_FOLDERS".
Definition default_script_folders : string := "D:/Google Drive/Scripting/_Scrsipts".

(** [lk = LocalConstants()] at import time, under the environment [environ]:
    [script_folders = os.environ.get(env_script_folders, "D:/...")]. *)
Definition lk_initial (environ : gmap string string) : LocalConstants :=
  {| dynamic_classes_generated := false;
     dynamic_classes := ∅;
     script_folders := default default_script_folders (environ !! env_script_folders) |}.

(** [os.path.splitext(os.path.basename(script_path))[0]]. *)
Definition script_name_of (script_path : string) : string :=
  (splitext (basename script_path)).1.

Definition dynamic_class_from_script (lk : LocalConstants) (script_path : string)
    : LocalConstants :=
  let script_name := script_name_of script_path in
  if bool_decide (script_name ∈ dom (dynamic_classes lk)) then lk
  else
    let script_cls := make_class_from_script script_path script_name in
    {| dynamic_classes_generated := dynamic_classes_generated lk;
       dynamic_classes := <[script_name := script_cls]> (dynamic_classes lk);
       script_folders := script_folders lk |}.

Definition dynamic_classes_from_script_folder (fs : file_system) (lk : LocalConstants)
    (script_folder : string) : LocalConstants :=
  foldl dynamic_class_from_script lk (get_paths_in_folder fs script_folder ".py").

(** The body of the loop of [generate_dynamic_classes]. *)
Definition generate_from_folder (fs : file_system) (lk : LocalConstants)
    (script_folder : string) : LocalConstants :=
  if String.eqb script_folder "" then lk
  else if negb (path_exists fs script_folder) then lk
  else dynamic_classes_from_script_folder fs lk script_folder.

Definition generate_dynamic_classes (fs : file_system) (lk : LocalConstants)
    : LocalConstants :=
  if String.eqb (script_folders lk) "" then lk
  else
    let lk' := foldl (generate_from_folder fs) lk (split_on ";" (script_folders lk)) in
    {| dynamic_classes_generated := true;
       dynamic_classes := dynamic_classes lk';
       script_folders := script_folders lk' |}.

(** [get_tool_classes()]: the registry afterwards and the returned list,
    the subclasses of [ToolDockItemBase] (given as [subclasses]) followed
    by the generated classes. *)
Definition get_tool_classes (fs : file_system) (subclasses : list DynamicClass)
    (lk : LocalConstants) : LocalConstants * list DynamicClass :=
  let lk' :=
    if negb (dynamic_classes_generated lk) then generate_dynamic_classes fs lk
    else lk in
  (lk', subclasses ++ (map_to_list (dynamic_classes lk')).*2).

(** The registries the program can be in: [lk] as created at import time,
    or the registry after one more scan or one more script. *)
Inductive reachable (environ : gmap string string) : LocalConstants → Prop :=
  | reachable_initial :
      reachable environ (lk_initial environ)
  | reachable_generate fs lk :
      reachable environ lk →
      reachable environ (generate_dynamic_classes fs lk)
  | reachable_get_tool_classes fs subclasses lk :
      reachable environ lk →
      reachable environ (get_tool_classes fs subclasses lk).1
  | reachable_script lk script_path :
      reachable environ lk →
      reachable environ (dynamic_class_from_script lk script_path).

(** Every class is stored under its own tool name, which is the name
    derived from its script path. *)
Definition registry_wf (classes : gmap string DynamicClass) : Prop :=
  ∀ name cls, classes !! name = Some cls →
    TOOL_NAME cls = name
    ∧ script_name_of (SCRIPT_PATH cls) = name
    ∧ TOOL_TIP cls = SCRIPT_PATH cls.

(* ===================================================================== *)
(** * Running a script: [runpy.run_path] *)
(* ===================================================================== *)

(** A module namespace ([globals()]). *)
Abbreviation namespace := (gmap string pyval).

(** Top-level code, as far as it reads and binds global names. *)
Inductive expr : Type :=
  | ELit (v : pyval)
  | EName (x : string).

Inductive stmt : Type :=
  | SAssign (x : string) (e : expr)
  | SDel (x : string).

(** How running code ends: with the final globals, or with an exception
    (named by its class). *)
Inductive outcome : Type :=
  | Finished (final_globals : namespace)
  | Raised (exception : string).

Definition eval_expr (globals : namespace) (e : expr) : option pyval :=
  match e with
  | ELit v => Some v
  | EName x => globals !! x
  end.

Fixpoint exec_code (code : list stmt) (globals : namespace) : outcome :=
  match code with
  | [] => Finished globals
  | SAssign x e :: code' =>
      match eval_expr globals e with
      | Some v => exec_code code' (<[x := v]> globals)
      | None => Raised "NameError"
      end
  | SDel x :: code' =>
      match globals !! x with
      | Some _ => exec_code code' (delete x globals)
      | None => Raised "NameError"
      end
  end.

(** The [__dict__] of the temporary module [runpy] creates
    ([imp.new_module(mod_name)]). *)
Definition new_module_dict (mod_name : string) : namespace :=
  <["__name__" := PStr mod_name]>
    (<["__doc__" := PNone]> (<["__package__" := PNone]> ∅)).

(** [runpy._run_code]: [run_globals.update(init_globals)], then
    [run_globals.update(__name__=..., __file__=..., __loader__=None,
    __package__=None)]; the result is the namespace the code runs in. *)
Definition run_globals (path_name : string) (init_globals : option namespace)
    (run_name : string) : namespace :=
  let mod_globals := new_module_dict run_name in
  let mod_globals :=
    match init_globals with
    | Some g => g ∪ mod_globals
    | None => mod_globals
    end in
  <["__name__" := PStr run_name]>
    (<["__file__" := PStr path_name]>
       (<["__loader__" := PNone]>
          (<["__package__" := PNone]> mod_globals))).

(** [runpy.run_path(path_name, init_globals, run_name)] for a source file;
    [files] gives the code of the readable files. *)
Definition run_path (files : gmap string (list stmt)) (path_name : string)
    (init_globals : option namespace) (run_name : option string) : outcome :=
  let run_name := default "<run_path>" run_name in
  match files !! path_name with
  | None => Raised "IOError"
  | Some code => exec_code code (run_globals path_name init_globals run_name)
  end.

(** [DynamicClass.run(self)]:
    [runpy.run_path(script_path, init_globals=globals(), run_name="__main__")],
    where [globals()] is the namespace of the module [tool_dock_utils]. *)
Definition run (files : gmap string (list stmt)) (module_globals : namespace)
    (cls : DynamicClass) : outcome :=
  run_path files (SCRIPT_PATH cls) (Some module_globals) (Some "__main__").

(** The names [run_globals] sets itself. *)
Definition runpy_names : list string :=
  ["__name__"; "__file__"; "__loader__"; "__package__"].

(** The data bindings of the module [tool_dock_utils] under Python 2, and
    its marker class and registry object. *)
Definition tool_dock_utils_globals : namespace :=
  <["__name__" := PStr "tool_dock.tool_dock_utils"]>
    (<["PY_2" := PBool true]>
       (<["background_form" := PStr "background-color:rgb({0}, {1}, {2})"]>
          (<["RequiresValueType" := RequiresValueType]>
             (<["lk" := PObj "lk"]> ∅)))).

(* ===================================================================== *)
(** * Example inputs *)
(* ===================================================================== *)

(** A folder [/scripts] holding [a.py], [b.py] and [notes.txt], and the
    same folder after [c.py] has been added. *)
Definition scripts_before : gmap string fs_node :=
  <["/scripts" := FsDir [("a.py", FsFile); ("b.py", FsFile); ("notes.txt", FsFile)]]> ∅.

Definition scripts_after : gmap string fs_node :=
  <["/scripts" := FsDir [("a.py", FsFile); ("b.py", FsFile); ("notes.txt", FsFile);
                         ("c.py", FsFile)]]> ∅.

(** An environment that sets [TOOL_DOCK_SCRIPT_FOLDERS] to [/scripts]. *)
Definition environ_scripts : gmap string string :=
  <[env_script_folders := "/scripts"]> ∅.

(** A machine on which the built-in default folder exists. *)
Definition default_folder_present : gmap string fs_node :=
  <[default_script_folders := FsDir [("a.py", FsFile)]]> ∅.

(** A script that reads a global of [tool_dock_utils]: [style = background_form]. *)
Definition script_files : gmap string (list stmt) :=
  <["/scripts/a.py" := [SAssign "style" (EName "background_form")]]> ∅.

(* ===================================================================== *)
(** * The order of a scan *)
(* ===================================================================== *)

(** The script paths [generate_dynamic_classes] hands to
    [dynamic_class_from_script], in that order: for each configured folder
    that is not the empty string and exists, the paths
    [get_paths_in_folder] yields for it. *)
Definition discovered_paths (fs : file_system) (script_folders : string) : list string :=
  script_folder ← split_on ";" script_folders;
  if String.eqb script_folder "" then []
  else if negb (path_exists fs script_folder) then []
  else get_paths_in_folder fs script_folder ".py".

(** [dir_in top n folder entries]: walking down from the directory [n]
    with path [top], the directory with path [folder] is reached, and it
    lists [entries]. *)
Inductive dir_in : string → fs_node → string → list (string * fs_node) → Prop :=
  | dir_in_here top entries :
      dir_in top (FsDir entries) top entries
  | dir_in_below top entries name child folder es :
      (name, child) ∈ entries →
      dir_in (join top name) child folder es →
      dir_in top (FsDir entries) folder es.

(* ===================================================================== *)
(** * [import_extra_modules] *)
(* ===================================================================== *)

Definition env_extra_modules : string := "TOOL_DOCK_EXTRA_MODULES".

(** How [import_extra_modules] ends: with [sys.modules] as it is then, or
    with the [KeyError] of [sys.modules.pop], or with the error of
    [importlib.import_module]. *)
Inductive import_outcome : Type :=
  | ModulesAfter (sys_modules : gmap string pyval)
  | RaisedKeyError
  | RaisedImportError.

(** [module_import_str] is not the empty string and
    [module_import_str in mod_key]. *)
Definition named_in (mod_key module_import_str : string) : bool :=
  negb (String.eqb module_import_str "") && occurs_in module_import_str mod_key.

(** The body of the inner loop of the refresh, for one [mod_key]: the
    [continue] after the [pop] goes on with the next [module_import_str]. *)
Definition pop_if_named (mod_key : string) (state : import_outcome)
    (module_import_str : string) : import_outcome :=
  match state with
  | ModulesAfter sys_modules =>
      if String.eqb module_import_str "" then state
      else if occurs_in module_import_str mod_key then
        match sys_modules !! mod_key with
        | Some _ => ModulesAfter (delete mod_key sys_modules)
        | None => RaisedKeyError
        end
      else state
  | _ => state
  end.

(** The refresh: the outer loop runs over the snapshot
    [sys.modules.keys()]. *)
Definition refresh_modules (modules_to_import : list string)
    (sys_modules : gmap string pyval) : import_outcome :=
  foldl (fun state mod_key => foldl (pop_if_named mod_key) state modules_to_import)
        (ModulesAfter sys_modules)
        (map_to_list sys_modules).*1.

(** The body of the import loop; [import_module name sys_modules] is
    [sys.modules] after [importlib.import_module(name)], or [None] when
    the import raises. *)
Definition import_named
    (import_module : string → gmap string pyval → option (gmap string pyval))
    (state : import_outcome) (module_import_str : string) : import_outcome :=
  match state with
  | ModulesAfter sys_modules =>
      if String.eqb module_import_str "" then state
      else match import_module module_import_str sys_modules with
           | Some sys_modules' => ModulesAfter sys_modules'
           | None => RaisedImportError
           end
  | _ => state
  end.

(** [import_extra_modules(refresh)]. *)
Definition import_extra_modules
    (import_module : string → gmap string pyval → option (gmap string pyval))
    (environ : gmap string string) (refresh : bool)
    (sys_modules : gmap string pyval) : import_outcome :=
  let modules_to_import :=
    split_on ";" (default "" (environ !! env_extra_modules)) in
  let state :=
    if refresh then refresh_modules modules_to_import sys_modules
    else ModulesAfter sys_modules in
  foldl (import_named import_module) state modules_to_import.

(* ===================================================================== *)
(** * [get_preview_from_script] *)
(* ===================================================================== *)

Definition newline : string := String "010"%char EmptyString.

(** The slice [l[:n]] for any integer [n]: a negative [n] counts from the
    end. *)
Definition py_list_upto {A} (l : list A) (n : Z) : list A :=
  if (0 <=? n)%Z then take (Z.to_nat n) l
  else take (Z.to_nat (Z.of_nat (length l) + n)) l.

(** ["".join(pieces)]. *)
Definition str_join (pieces : list string) : string :=
  foldr String.append EmptyString pieces.

(** [get_preview_from_script(script_path, max_line_count)]; [files] gives
    the lines ([readlines()]) of the readable files, and [None] is the
    [IOError] of [open]. *)
Definition get_preview_from_script (files : gmap string (list string))
    (script_path : string) (max_line_count : option Z) : option string :=
  match files !! script_path with
  | None => None
  | Some script_lines =>
      let max_line_count :=
        match max_line_count with
        | None => Z.of_nat (length script_lines)
        | Some n => n
        end in
      let script_code := str_join (py_list_upto script_lines max_line_count) in
      let script_code :=
        if (max_line_count <? Z.of_nat (length script_lines))%Z
        then script_code +:+ "......"
        else script_code in
      Some (script_path +:+ newline +:+ newline +:+ script_code +:+ newline)
  end.

(* ===================================================================== *)
(** * [all_subclasses] *)
(* ===================================================================== *)

(** A class with the classes [cls.__subclasses__()] lists, each with its
    own; classes are told apart by their names. *)
#[warnings="-register-all"]
Inductive pyclass : Type :=
  | PyClass (name : string) (subclasses : list pyclass).

Definition class_name (cls : pyclass) : string :=
  match cls with PyClass name _ => name end.

Definition direct_subclasses (cls : pyclass) : list pyclass :=
  match cls with PyClass _ subclasses => subclasses end.

(** [all_subclasses(cls)]:
    [set(cls.__subclasses__()).union([s for c in cls.__subclasses__()
                                        for s in all_subclasses(c)])]. *)
Fixpoint all_subclasses (cls : pyclass) : gset string :=
  match cls with
  | PyClass _ subclasses =>
      let fix of_each (cs : list pyclass) : gset string :=
        match cs with
        | [] => ∅
        | c :: cs' => all_subclasses c ∪ of_each cs'
        end in
      list_to_set (class_name <$> subclasses) ∪ of_each subclasses
  end.

(** [subclass_below cls name]: the class named [name] is a subclass of
    [cls], directly or through other subclasses. *)
Inductive subclass_below : pyclass → string → Prop :=
  | subclass_direct cls c :
      c ∈ direct_subclasses cls → subclass_below cls (class_name c)
  | subclass_indirect cls c name :
      c ∈ direct_subclasses cls → subclass_below c name → subclass_below cls name.
(* ===================================================================== *)
(** * Proofs: ordered dictionaries *)
(* ===================================================================== *)

Lemma od_set_fresh (d : odict) k v :
  k ∉ od_keys d → od_set d k v = d ++ [(k, v)].
Proof.
  induction d as [|[k' v'] d IH]; simpl; intros Hk; [done|].
  rewrite not_elem_of_cons in Hk. destruct Hk as [Hne Hk].
  case_decide; [done|]. by rewrite IH.
Qed.

Lemma od_set_middle (p s : odict) k v0 v :
  k ∉ od_keys p → od_set (p ++ (k, v0) :: s) k v = p ++ (k, v) :: s.
Proof.
  induction p as [|[k' v'] p IH]; simpl; intros Hk.
  - by case_decide.
  - rewrite not_elem_of_cons in Hk. destruct Hk as [Hne Hk].
    case_decide; [done|]. by rewrite IH.
Qed.

Lemma od_keys_app (d1 d2 : odict) : od_keys (d1 ++ d2) = od_keys d1 ++ od_keys d2.
Proof. unfold od_keys. apply fmap_app. Qed.

Lemma od_keys_required names : od_keys (required_items names) = names.
Proof.
  unfold od_keys, required_items.
  induction names as [|n names IH]; csimpl; [done|]. by rewrite IH.
Qed.

(** The first loop of [get_func_arguments] over distinct names. *)
Lemma fill_required (d : odict) (names : list string) :
  NoDup (od_keys d ++ names) →
  foldl (fun d n => od_set d n RequiresValueType) d names
  = d ++ required_items names.
Proof.
  revert d. induction names as [|n names IH]; intros d Hnd; simpl.
  - by rewrite app_nil_r.
  - assert (n ∉ od_keys d) as Hn.
    { apply NoDup_app in Hnd as (_ & Hd & _). intros Hin.
      apply (Hd n Hin). left. }
    rewrite od_set_fresh by done.
    rewrite IH.
    + by rewrite <- app_assoc.
    + rewrite od_keys_app. simpl. by rewrite <- app_assoc.
Qed.

(** The second loop, written as a [foldr] over the pairs in declaration
    order: the pairs overwrite a block of required entries in place. *)
Lemma fill_defaults (p : odict) (names : list string) (ds : list pyval) :
  length ds = length names →
  NoDup (od_keys p ++ names) →
  foldr (fun pair d => fill_in_default d pair)
        (p ++ required_items names) (zip ds names)
  = p ++ zip names ds.
Proof.
  revert p ds. induction names as [|n names IH]; intros p [|v ds] Hlen Hnd;
    simpl in *; try done.
  injection Hlen as Hlen.
  replace (p ++ (n, RequiresValueType) :: required_items names)
    with ((p ++ [(n, RequiresValueType)]) ++ required_items names)
    by (by rewrite <- app_assoc).
  rewrite IH; [| done |].
  - rewrite <- app_assoc. simpl. apply od_set_middle.
    apply NoDup_app in Hnd as (_ & Hd & _). intros Hin.
    apply (Hd n Hin). left.
  - rewrite od_keys_app. simpl. by rewrite <- app_assoc.
Qed.

Lemma zip_reverse {A B} (l : list A) (k : list B) :
  length l = length k → zip (reverse l) (reverse k) = reverse (zip l k).
Proof.
  revert k. induction l as [|x l IH]; intros [|y k] Hlen; simpl in *; try done.
  injection Hlen as Hlen.
  rewrite !reverse_cons. rewrite zip_with_app by (by rewrite !length_reverse).
  by rewrite IH.
Qed.

Lemma zip_app_r_drop {A B} (l : list A) (k1 k2 : list B) :
  length l = length k1 → zip l (k1 ++ k2) = zip l k1.
Proof.
  revert k1. induction l as [|x l IH]; intros [|y k1] Hlen; simpl in *; try done.
  injection Hlen as Hlen. by rewrite IH.
Qed.

Lemma foldl_reverse {A B} (f : A → B → A) (a : A) (l : list B) :
  foldl f a (reverse l) = foldr (fun x acc => f acc x) a l.
Proof.
  induction l as [|x l IH]; simpl; [done|].
  by rewrite reverse_cons, foldl_app, IH.
Qed.

Lemma required_items_zip names :
  required_items names = zip names (replicate (length names) RequiresValueType).
Proof.
  unfold required_items. induction names as [|n names IH]; csimpl; [done|].
  by rewrite IH.
Qed.

Lemma required_items_app l1 l2 :
  required_items (l1 ++ l2) = required_items l1 ++ required_items l2.
Proof. unfold required_items. apply fmap_app. Qed.

(* ===================================================================== *)
(** * Proofs: [get_func_arguments] *)
(* ===================================================================== *)

(** The dictionary [get_func_arguments] builds, in closed form. *)
Lemma get_func_arguments_closed_form (names : list string) va kw (ds_opt : option (list pyval)) :
  NoDup names →
  (length (default [] ds_opt) ≤ length names)%nat →
  get_func_arguments
    (PyFunction {| args := names; varargs := va; keywords := kw; defaults := ds_opt |})
  = Some (zip names
            (replicate (length names - length (default [] ds_opt)) RequiresValueType
             ++ default [] ds_opt)).
Proof.
  intros Hnd Hle. unfold get_func_arguments. simpl.
  rewrite (fill_required [] names) by done. simpl.
  destruct (defaults_truthy ds_opt) eqn:Ht.
  - destruct ds_opt as [ds|]; [|done]. simpl in *. f_equal.
    rewrite od_keys_required.
    set (n := length names - length ds).
    assert (names = take n names ++ drop n names) as Hsplit
      by (by rewrite take_drop).
    assert (length (drop n names) = length ds) as Hlen
      by (rewrite length_drop; unfold n; lia).
    assert (length (take n names) = n) as Hlen'
      by (rewrite length_take; unfold n; lia).
    rewrite Hsplit at 1 2 3.
    rewrite reverse_app, zip_app_r_drop by (by rewrite !length_reverse).
    rewrite zip_reverse by done.
    rewrite foldl_reverse.
    rewrite required_items_app.
    rewrite (fill_defaults (required_items (take n names)) (drop n names) ds);
      [| done | by rewrite od_keys_required, take_drop].
    rewrite zip_with_app by (by rewrite length_replicate).
    by rewrite required_items_zip, Hlen'.
  - f_equal.
    assert (default [] ds_opt = []) as ->
      by (by destruct ds_opt as [[|??]|]).
    simpl. by rewrite Nat.sub_0_r, app_nil_r, required_items_zip.
Qed.

Lemma get_func_arguments_keys
    (names : list string) va kw (ds_opt : option (list pyval)) :
  NoDup names →
  (length (default [] ds_opt) ≤ length names)%nat →
  ∃ d : odict,
    get_func_arguments
      (PyFunction {| args := names; varargs := va; keywords := kw; defaults := ds_opt |})
      = Some d
    ∧ od_keys d = names.
Proof.
  intros Hnd Hle. eexists. split.
  { by apply get_func_arguments_closed_form. }
  unfold od_keys. apply fst_zip.
  rewrite length_app, length_replicate. lia.
Qed.

(** C1.  For a callable with [N] distinct positional parameter names of
    which the trailing [K] have defaults ([K ≤ N]), [get_func_arguments]
    returns an ordered dictionary with exactly [N] entries whose keys are
    the parameter names in declaration order; the first [N - K] values are
    the marker [RequiresValueType] and the last [K] values are the declared
    defaults in their original order. *)
Theorem get_func_arguments_trailing_defaults (names : list string) va kw (ds_opt : option (list pyval)) :
  NoDup names →
  (length (default [] ds_opt) ≤ length names)%nat →
  ∃ d : odict,
    get_func_arguments
      (PyFunction {| args := names; varargs := va; keywords := kw; defaults := ds_opt |})
      = Some d
    ∧ length d = length names
    ∧ od_keys d = names
    ∧ take (length names - length (default [] ds_opt)) (od_values d)
      = replicate (length names - length (default [] ds_opt)) RequiresValueType
    ∧ drop (length names - length (default [] ds_opt)) (od_values d)
      = default [] ds_opt.
Proof.
  intros Hnd Hle. eexists. split.
  { by apply get_func_arguments_closed_form. }
  set (ds := default [] ds_opt) in *.
  set (vals := replicate (length names - length ds) RequiresValueType ++ ds).
  assert (length vals = length names) as Hvals.
  { unfold vals. rewrite length_app, length_replicate. lia. }
  assert (od_values (zip names vals) = vals) as Hv.
  { unfold od_values. apply snd_zip. lia. }
  repeat split.
  - rewrite length_zip. lia.
  - unfold od_keys. apply fst_zip. lia.
  - rewrite Hv. unfold vals. rewrite take_app_length'; [done|].
    by rewrite length_replicate.
  - rewrite Hv. unfold vals. rewrite drop_app_length'; [done|].
    by rewrite length_replicate.
Qed.

(** A function [run(self, path, recursive=False, depth=None)]. *)
Lemma get_func_arguments_trailing_defaults_witness :
  ∃ d : odict,
    get_func_arguments
      (PyFunction {| args := ["self"; "path"; "recursive"; "depth"];
                     varargs := None; keywords := None;
                     defaults := Some [PBool false; PNone] |})
      = Some d
    ∧ length d = 4
    ∧ od_keys d = ["self"; "path"; "recursive"; "depth"]
    ∧ take 2 (od_values d) = [RequiresValueType; RequiresValueType]
    ∧ drop 2 (od_values d) = [PBool false; PNone].
Proof.
  apply (get_func_arguments_trailing_defaults
           ["self"; "path"; "recursive"; "depth"] None None
           (Some [PBool false; PNone])).
  - apply (bool_decide_unpack _). vm_compute. reflexivity.
  - simpl. lia.
Defined.

(* ===================================================================== *)
(** * Proofs: [auto_populate_parameters] *)
(* ===================================================================== *)

Lemma od_pop_middle (p s : odict) k v0 :
  k ∉ od_keys p → od_pop (p ++ (k, v0) :: s) k = p ++ s.
Proof.
  induction p as [|[k' v'] p IH]; simpl; intros Hk.
  - by case_decide.
  - rewrite not_elem_of_cons in Hk. destruct Hk as [Hne Hk].
    case_decide; [done|]. by rewrite IH.
Qed.

Lemma od_keys_form_data (d : odict) :
  od_keys (form_data d) = filter (fun k => k ≠ "self") (od_keys d).
Proof.
  unfold od_keys, form_data.
  induction d as [|[k v] d IH]; [done|].
  rewrite fmap_cons, !filter_cons. simpl.
  case_decide; csimpl; by rewrite IH.
Qed.

Lemma form_data_snoc (d : odict) k v :
  form_data (d ++ [(k, v)])
  = form_data d ++ (if decide (k = "self") then [] else [form_entry (k, v)]).
Proof.
  unfold form_data. rewrite filter_app, fmap_app. f_equal.
  rewrite filter_cons, filter_nil. simpl.
  repeat case_decide; done.
Qed.

(** The loop of [auto_populate_parameters], started in the middle: the
    items already visited are in their final form, the others untouched. *)
Lemma auto_populate_loop (done_ todo : odict) :
  NoDup (od_keys (done_ ++ todo)) →
  foldl auto_populate_step (form_data done_ ++ todo) todo
  = form_data (done_ ++ todo).
Proof.
  revert done_. induction todo as [|[k v] todo IH]; intros done_ Hnd; simpl.
  - by rewrite !app_nil_r.
  - assert (k ∉ od_keys (form_data done_)) as Hk.
    { rewrite od_keys_form_data. intros Hin.
      apply list_elem_of_filter in Hin as [_ Hin].
      rewrite od_keys_app in Hnd. apply NoDup_app in Hnd as (_ & Hd & _).
      apply (Hd k Hin). left. }
    replace (done_ ++ (k, v) :: todo) with ((done_ ++ [(k, v)]) ++ todo) in *
      by (by rewrite <- app_assoc).
    rewrite <- (IH (done_ ++ [(k, v)])) by done.
    f_equal. rewrite form_data_snoc.
    case_decide as Hself.
    + rewrite app_nil_r. by apply od_pop_middle.
    + unfold form_entry. simpl. destruct (py_eq v RequiresValueType).
      * rewrite od_set_middle by done. by rewrite <- app_assoc.
      * by rewrite <- app_assoc.
Qed.

Lemma auto_populate_loop_closed (d : odict) :
  NoDup (od_keys d) → foldl auto_populate_step d d = form_data d.
Proof. intros Hnd. by apply (auto_populate_loop [] d). Qed.

(** C5.  For a callable whose first parameter is named [self],
    [get_func_arguments] reports [self] like every other parameter, as the
    first key; [auto_populate_parameters] pops it, so the data handed to
    the parameter grid has exactly the other parameters as keys and no
    [self] key (and no form is built when [self] is the only parameter). *)
Theorem auto_populate_parameters_drops_self
    (rest : list string) va kw (ds_opt : option (list pyval)) :
  NoDup ("self" :: rest) →
  (length (default [] ds_opt) ≤ S (length rest))%nat →
  ∃ d : odict,
    get_func_arguments
      (PyFunction {| args := "self" :: rest; varargs := va; keywords := kw;
                     defaults := ds_opt |}) = Some d
    ∧ od_keys d = "self" :: rest
    ∧ match auto_populate_parameters
              (PyFunction {| args := "self" :: rest; varargs := va; keywords := kw;
                             defaults := ds_opt |}) with
      | FormFrom data => od_keys data = rest ∧ "self" ∉ od_keys data
      | NoForm => rest = []
      | PopulateTypeError => False
      end.
Proof.
  intros Hnd Hle.
  destruct (get_func_arguments_keys ("self" :: rest) va kw ds_opt)
    as (d & Hget & Hkeys); [done|done|].
  exists d. split; [done|]. split; [done|].
  unfold auto_populate_parameters. rewrite Hget.
  destruct d as [|item d']; [done|].
  rewrite auto_populate_loop_closed by (by rewrite Hkeys).
  assert (od_keys (form_data (item :: d')) = rest) as Hform.
  { rewrite od_keys_form_data, Hkeys, filter_cons. simpl.
    apply NoDup_cons in Hnd as [Hself _].
    clear -Hself. induction rest as [|r rest IH]; [done|].
    rewrite not_elem_of_cons in Hself. destruct Hself as [Hne Hself].
    rewrite filter_cons. case_decide; [|done]. by rewrite IH. }
  destruct (form_data (item :: d')) as [|e data] eqn:Heq.
  - by rewrite <- Hform.
  - split; [done|]. rewrite Hform. by apply NoDup_cons in Hnd as [Hself _].
Qed.

(** A method [run(self, path, recursive=False)]. *)
Lemma auto_populate_parameters_drops_self_witness :
  ∃ d : odict,
    get_func_arguments
      (PyFunction {| args := ["self"; "path"; "recursive"]; varargs := None;
                     keywords := None; defaults := Some [PBool false] |}) = Some d
    ∧ od_keys d = ["self"; "path"; "recursive"]
    ∧ match auto_populate_parameters
              (PyFunction {| args := ["self"; "path"; "recursive"]; varargs := None;
                             keywords := None; defaults := Some [PBool false] |}) with
      | FormFrom data => od_keys data = ["path"; "recursive"] ∧ "self" ∉ od_keys data
      | NoForm => ["path"; "recursive"] = []
      | PopulateTypeError => False
      end.
Proof.
  apply (auto_populate_parameters_drops_self ["path"; "recursive"] None None
           (Some [PBool false])).
  - apply (bool_decide_unpack _). vm_compute. reflexivity.
  - simpl. lia.
Defined.

(* ===================================================================== *)
(** * Proofs: the required marker *)
(* ===================================================================== *)





(** The same for the empty values: [f(a, b="", c=(), d=[], e=0, f=False)]. *)
Example empty_defaults_are_reported :
  get_func_arguments
    (PyFunction {| args := ["a"; "b"; "c"; "d"; "e"; "f"]; varargs := None;
                   keywords := None;
                   defaults := Some [PStr ""; PTuple []; PList []; PInt 0; PBool false] |})
  = Some [("a", RequiresValueType); ("b", PStr ""); ("c", PTuple []);
          ("d", PList []); ("e", PInt 0); ("f", PBool false)].
Proof. reflexivity. Qed.

(* ===================================================================== *)
(** * Proofs: [ToolDockSettings.get_value] *)
(* ===================================================================== *)








(* ===================================================================== *)
(** * Proofs: saving and loading tool-dock settings *)
(* ===================================================================== *)

Lemma elem_of_allKeys (settings : gmap string pyval) (key : string) :
  key ∈ allKeys settings ↔ is_Some (settings !! key).
Proof.
  unfold allKeys. rewrite merge_sort_Permutation, elem_of_elements.
  apply elem_of_dom.
Qed.

Lemma get_value_no_default (settings : gmap string pyval) (key : string) :
  get_value settings key PNone = default PNone (settings !! key).
Proof. reflexivity. Qed.

(** What the loop of [save_tooldock_settings] leaves under a key. *)
Lemma save_loop_lookup (settings : gmap string pyval) current_tooldock keys
    (out_settings : gmap string pyval) (key : string) :
  foldl (save_key settings current_tooldock) out_settings keys !! key
  = if bool_decide (key ∈ keys) && startswith key current_tooldock
    then Some (get_value settings key PNone)
    else out_settings !! key.
Proof.
  revert out_settings. induction keys as [|k keys IH]; intros out_settings; simpl.
  - done.
  - rewrite IH. unfold save_key, setValue.
    destruct (bool_decide (key ∈ keys)) eqn:Hin; simpl.
    + apply bool_decide_eq_true in Hin.
      rewrite (bool_decide_eq_true_2 (key ∈ k :: keys)) by (by right). simpl.
      destruct (startswith key current_tooldock) eqn:Hs; [done|].
      destruct (decide (k = key)) as [->|Hne].
      * by rewrite Hs.
      * destruct (startswith k current_tooldock); simpl; [|done].
        by rewrite lookup_insert_ne.
    + apply bool_decide_eq_false in Hin.
      destruct (decide (k = key)) as [->|Hne].
      * rewrite (bool_decide_eq_true_2 (key ∈ key :: keys)) by left. simpl.
        destruct (startswith key current_tooldock); simpl; [|done].
        by rewrite lookup_insert_eq.
      * rewrite (bool_decide_eq_false_2 (key ∈ k :: keys))
          by (rewrite elem_of_cons; intros [?|?]; by subst).
        simpl. destruct (startswith k current_tooldock); simpl; [|done].
        by rewrite lookup_insert_ne.
Qed.



Example get_value_string_true_unchanged :
  get_value (<["dockA/visible" := PStr "true"]> ∅) "dockA/visible" PNone = PStr "true"
  ∧ get_value (<["dockA/visible" := PStr "true"]> ∅) "dockA/visible" (PBool false)
    = PBool true.
Proof. split; reflexivity. Qed.

(** C8 at a key in which the namespace occurs twice: the key
    [dockA/dockA_geometry] is exported under [dockA] and imported into
    [dockB] as [dockB/dockB_geometry]; the key with only the prefix
    rewritten, [dockB/dockA_geometry], is not in the target. *)
Example load_rewrites_every_occurrence :
  let settings : gmap string pyval :=
    <["dockA/dockA_geometry" := PStr "10"]> (<["dockA/visible" := PStr "true"]> ∅) in
  let disk :=
    (save_tooldock_settings ∅ None settings "dockA" (Some "dockA.ini")).1 in
  ∃ target_settings : gmap string pyval,
    load_tooldock_settings disk None ∅ "dockB" (SourcePath "dockA.ini")
    = Loaded target_settings
    ∧ target_settings !! "dockB/dockA_geometry" = None
    ∧ target_settings !! "dockB/dockB_geometry" = Some (PStr "10")
    ∧ target_settings !! "dockB/visible" = Some (PStr "true").
Proof. eexists. split; [vm_compute; reflexivity|]. repeat split. Qed.

(* ===================================================================== *)
(** * Proofs: strings and paths *)
(* ===================================================================== *)

Lemma str_app_nil (s : string) : "" +:+ s = s.
Proof. reflexivity. Qed.

Lemma str_app_cons (c : ascii) (s t : string) : String c s +:+ t = String c (s +:+ t).
Proof. reflexivity. Qed.

Ltac str_simpl := rewrite ?str_app_nil, ?str_app_cons; simpl.

Lemma string_app_assoc (a b c : string) : (a +:+ b) +:+ c = a +:+ (b +:+ c).
Proof. induction a as [|x a IH]; str_simpl; [done|]. by rewrite IH. Qed.

Lemma endswith_unfold (s suffix : string) :
  endswith s suffix
  = if String.eqb s suffix then true
    else match s with
         | EmptyString => false
         | String _ s' => endswith s' suffix
         end.
Proof. by destruct s. Qed.

Lemma endswith_spec (s suffix : string) :
  endswith s suffix = true ↔ ∃ p, s = p +:+ suffix.
Proof.
  induction s as [|c s IH]; rewrite endswith_unfold.
  - destruct (String.eqb_spec "" suffix) as [<-|Hne].
    + split; [by exists ""|done].
    + split; [done|]. intros [p Hp]. destruct p; [done|discriminate].
  - destruct (String.eqb_spec (String c s) suffix) as [<-|Hne].
    + split; [by exists ""|done].
    + rewrite IH. split.
      * intros [p ->]. by exists (String c p).
      * intros [[|c' p] Hp]; [done|].
        rewrite str_app_cons in Hp. injection Hp as -> ->. by exists p.
Qed.

Lemma rfind_opt_app (s t : string) (c : ascii) :
  rfind_opt (s +:+ t) c
  = match rfind_opt t c with
    | Some i => Some (String.length s + i)%nat
    | None => rfind_opt s c
    end.
Proof.
  induction s as [|x s IH]; str_simpl.
  - by destruct (rfind_opt t c).
  - rewrite IH. by destruct (rfind_opt t c).
Qed.

Lemma str_drop_app (s t : string) : str_drop (String.length s) (s +:+ t) = t.
Proof. induction s as [|x s IH]; str_simpl; [by destruct t|done]. Qed.

Lemma str_take_app (s t : string) : str_take (String.length s) (s +:+ t) = s.
Proof. induction s as [|x s IH]; str_simpl; [done|]. by rewrite IH. Qed.

Lemma str_drop_0 (s : string) : str_drop 0 s = s.
Proof. by destruct s. Qed.

Lemma string_length_app (s t : string) :
  String.length (s +:+ t) = (String.length s + String.length t)%nat.
Proof. induction s as [|x s IH]; str_simpl; [done|]. by rewrite IH. Qed.

(** A name without slash has no leading slash. *)
Lemma no_slash_startswith (name : string) :
  rfind_opt name "/" = None → name ≠ "" → startswith name "/" = false.
Proof.
  destruct name as [|c name]; [done|]. intros Hr _. simpl in Hr.
  change (startswith (String c name) "/")
    with (if ascii_dec "/" c then String.prefix "" name else false).
  destruct (ascii_dec "/" c) as [<-|?]; [|done].
  by destruct (rfind_opt name "/").
Qed.

(** [os.path.join] puts the name behind a prefix that is empty or ends
    with a slash. *)
Lemma join_shape (folder name : string) :
  startswith name "/" = false →
  ∃ prefix, join folder name = prefix +:+ name
            ∧ (prefix = "" ∨ ∃ p, prefix = p +:+ "/").
Proof.
  intros Hs. unfold join. rewrite Hs.
  destruct (String.eqb_spec folder "") as [->|Hne]; simpl.
  - exists "". split; [done | by left].
  - destruct (endswith folder "/") eqn:He.
    + exists folder. split; [done|]. right. by apply endswith_spec.
    + exists (folder +:+ "/"). split; [by rewrite string_app_assoc|].
      right. by exists folder.
Qed.

Lemma basename_app (prefix name : string) :
  rfind_opt name "/" = None →
  prefix = "" ∨ (∃ p, prefix = p +:+ "/") →
  basename (prefix +:+ name) = name.
Proof.
  intros Hname Hprefix. unfold basename, rfind, slice_from.
  rewrite rfind_opt_app, Hname.
  destruct Hprefix as [->|[p ->]].
  - simpl. apply str_drop_0.
  - rewrite rfind_opt_app. simpl.
    replace (Z.to_nat (Z.of_nat (String.length p + 0) + 1))
      with (String.length (p +:+ "/"))
      by (rewrite string_length_app; simpl; lia).
    apply str_drop_app.
Qed.

Lemma splitext_py (stem : string) :
  rfind_opt stem "/" = None →
  has_non_dot stem = true →
  splitext (stem +:+ ".py") = (stem, ".py").
Proof.
  intros Hslash Hdot. unfold splitext, rfind.
  rewrite !rfind_opt_app, Hslash. simpl.
  rewrite Nat.add_0_r.
  destruct (Z.ltb_spec (-1) (Z.of_nat (String.length stem))) as [_|?]; [|lia].
  unfold slice_from, slice_to.
  replace (Z.to_nat (-1 + 1)) with 0%nat by lia.
  replace (Z.to_nat (Z.of_nat (String.length stem) - (-1 + 1)))
    with (String.length stem) by lia.
  rewrite Nat2Z.id, str_drop_0, str_take_app, str_drop_app.
  by rewrite Hdot.
Qed.

(** The tool name of a file [stem.py] in any folder is [stem], when the
    stem holds no slash and some character that is not a dot. *)
Lemma script_name_of_py (folder stem : string) :
  rfind_opt stem "/" = None →
  has_non_dot stem = true →
  script_name_of (join folder (stem +:+ ".py")) = stem.
Proof.
  intros Hslash Hdot. unfold script_name_of.
  assert (rfind_opt (stem +:+ ".py") "/" = None) as Hname
    by (by rewrite rfind_opt_app).
  assert (stem +:+ ".py" ≠ "") as Hne by (by destruct stem).
  destruct (join_shape folder (stem +:+ ".py")) as (prefix & -> & Hprefix).
  { by apply no_slash_startswith. }
  rewrite basename_app by done.
  by rewrite splitext_py.
Qed.

(* ===================================================================== *)
(** * Proofs: the registry *)
(* ===================================================================== *)

Lemma dynamic_class_from_script_known (lk : LocalConstants) (script_path : string) :
  script_name_of script_path ∈ dom (dynamic_classes lk) →
  dynamic_class_from_script lk script_path = lk.
Proof.
  intros Hin. unfold dynamic_class_from_script.
  by rewrite bool_decide_eq_true_2.
Qed.

Lemma dynamic_class_from_script_new (lk : LocalConstants) (script_path : string) :
  script_name_of script_path ∉ dom (dynamic_classes lk) →
  dynamic_classes (dynamic_class_from_script lk script_path)
  = <[script_name_of script_path :=
        make_class_from_script script_path (script_name_of script_path)]>
      (dynamic_classes lk).
Proof.
  intros Hin. unfold dynamic_class_from_script.
  by rewrite bool_decide_eq_false_2.
Qed.

Lemma dynamic_class_from_script_keeps (lk : LocalConstants) (script_path : string)
    (name : string) (cls : DynamicClass) :
  dynamic_classes lk !! name = Some cls →
  dynamic_classes (dynamic_class_from_script lk script_path) !! name = Some cls.
Proof.
  intros Hcls. unfold dynamic_class_from_script. case_bool_decide as Hin; [done|].
  simpl. rewrite lookup_insert_ne; [done|].
  intros <-. apply Hin. apply elem_of_dom. by eexists.
Qed.

Lemma dynamic_class_from_script_registers (lk : LocalConstants) (script_path : string) :
  script_name_of script_path ∈ dom (dynamic_classes (dynamic_class_from_script lk script_path)).
Proof.
  unfold dynamic_class_from_script. case_bool_decide as Hin; [done|].
  simpl. rewrite dom_insert_L. set_solver.
Qed.

Lemma dynamic_class_from_script_config (lk : LocalConstants) (script_path : string) :
  script_folders (dynamic_class_from_script lk script_path) = script_folders lk
  ∧ dynamic_classes_generated (dynamic_class_from_script lk script_path)
    = dynamic_classes_generated lk.
Proof. unfold dynamic_class_from_script. by case_bool_decide. Qed.

Lemma dynamic_class_from_script_wf (lk : LocalConstants) (script_path : string) :
  registry_wf (dynamic_classes lk) →
  registry_wf (dynamic_classes (dynamic_class_from_script lk script_path)).
Proof.
  intros Hwf. unfold dynamic_class_from_script. case_bool_decide as Hin; [done|].
  simpl. intros name cls Hcls.
  destruct (decide (script_name_of script_path = name)) as [<-|Hne].
  - rewrite lookup_insert_eq in Hcls. by injection Hcls as <-.
  - rewrite lookup_insert_ne in Hcls by done. by apply Hwf.
Qed.

(** The loop of [dynamic_classes_from_script_folder]. *)
Lemma scripts_loop (script_paths : list string) (lk : LocalConstants) :
  let lk' := foldl dynamic_class_from_script lk script_paths in
  (registry_wf (dynamic_classes lk) → registry_wf (dynamic_classes lk'))
  ∧ (∀ name cls, dynamic_classes lk !! name = Some cls →
                 dynamic_classes lk' !! name = Some cls)
  ∧ (∀ script_path, script_path ∈ script_paths →
                    script_name_of script_path ∈ dom (dynamic_classes lk'))
  ∧ script_folders lk' = script_folders lk
  ∧ dynamic_classes_generated lk' = dynamic_classes_generated lk.
Proof.
  revert lk. induction script_paths as [|p script_paths IH]; intros lk; simpl.
  - split_and!; try done. intros ? Hin. by apply elem_of_nil in Hin.
  - destruct (IH (dynamic_class_from_script lk p)) as (Hwf & Hkeep & Hreg & Hsf & Hgen).
    destruct (dynamic_class_from_script_config lk p) as [Hsf' Hgen'].
    split_and!.
    + intros H. by apply Hwf, dynamic_class_from_script_wf.
    + intros name cls H. by apply Hkeep, dynamic_class_from_script_keeps.
    + intros script_path [->|Hin]%elem_of_cons; [|by apply Hreg].
      pose proof (dynamic_class_from_script_registers lk p) as Hp.
      apply elem_of_dom in Hp as [cls Hcls]. apply elem_of_dom.
      exists cls. by apply Hkeep.
    + congruence.
    + congruence.
Qed.

Lemma generate_from_folder_cases (fs : gmap string fs_node) (lk : LocalConstants)
    (script_folder : string) :
  ((script_folder = "" ∨ fs !! script_folder = None)
   ∧ generate_from_folder fs lk script_folder = lk)
  ∨ (script_folder ≠ "" ∧ is_Some (fs !! script_folder)
     ∧ generate_from_folder fs lk script_folder
       = foldl dynamic_class_from_script lk
               (get_paths_in_folder fs script_folder ".py")).
Proof.
  unfold generate_from_folder.
  destruct (String.eqb_spec script_folder "") as [->|Hne]; [left; by split; [left|]|].
  unfold path_exists. case_bool_decide as Hex; simpl.
  - right. by split_and!.
  - left. split; [|done]. right. by apply eq_None_not_Some.
Qed.

(** The loop of [generate_dynamic_classes]. *)
Lemma folders_loop (fs : gmap string fs_node) (folders : list string)
    (lk : LocalConstants) :
  let lk' := foldl (generate_from_folder fs) lk folders in
  (registry_wf (dynamic_classes lk) → registry_wf (dynamic_classes lk'))
  ∧ (∀ name cls, dynamic_classes lk !! name = Some cls →
                 dynamic_classes lk' !! name = Some cls)
  ∧ (∀ script_folder script_path,
       script_folder ∈ folders → script_folder ≠ "" →
       is_Some (fs !! script_folder) →
       script_path ∈ get_paths_in_folder fs script_folder ".py" →
       script_name_of script_path ∈ dom (dynamic_classes lk'))
  ∧ script_folders lk' = script_folders lk
  ∧ dynamic_classes_generated lk' = dynamic_classes_generated lk.
Proof.
  revert lk. induction folders as [|f folders IH]; intros lk; simpl.
  - split_and!; try done. intros ?? Hin. by apply elem_of_nil in Hin.
  - destruct (IH (generate_from_folder fs lk f)) as (Hwf & Hkeep & Hreg & Hsf & Hgen).
    destruct (generate_from_folder_cases fs lk f) as [[Hskip Heq]|(Hne & Hex & Heq)].
    + rewrite Heq in *. split_and!; try done.
      intros script_folder script_path [->|Hin]%elem_of_cons Hne' Hex' Hp;
        [|by eapply Hreg].
      exfalso. destruct Hskip as [->|Hnone]; [done|].
      rewrite Hnone in Hex'. by destruct Hex'.
    + destruct (scripts_loop (get_paths_in_folder fs f ".py") lk)
        as (Hwf' & Hkeep' & Hreg' & Hsf' & Hgen').
      rewrite <- Heq in *. split_and!.
      * intros H. by apply Hwf, Hwf'.
      * intros name cls H. by apply Hkeep, Hkeep'.
      * intros script_folder script_path [->|Hin]%elem_of_cons Hne' Hex' Hp;
          [|by eapply Hreg].
        apply Hreg' in Hp. apply elem_of_dom in Hp as [cls Hcls].
        apply elem_of_dom. exists cls. by apply Hkeep.
      * congruence.
      * congruence.
Qed.

Lemma generate_dynamic_classes_wf (fs : gmap string fs_node) (lk : LocalConstants) :
  registry_wf (dynamic_classes lk) →
  registry_wf (dynamic_classes (generate_dynamic_classes fs lk)).
Proof.
  intros Hwf. unfold generate_dynamic_classes.
  destruct (String.eqb (script_folders lk) ""); [done|]. simpl.
  by apply folders_loop.
Qed.

Lemma generate_dynamic_classes_keeps (fs : gmap string fs_node) (lk : LocalConstants)
    (name : string) (cls : DynamicClass) :
  dynamic_classes lk !! name = Some cls →
  dynamic_classes (generate_dynamic_classes fs lk) !! name = Some cls.
Proof.
  intros Hcls. unfold generate_dynamic_classes.
  destruct (String.eqb (script_folders lk) ""); [done|]. simpl.
  by apply folders_loop.
Qed.


Lemma generate_dynamic_classes_script_folders (fs : gmap string fs_node)
    (lk : LocalConstants) :
  script_folders (generate_dynamic_classes fs lk) = script_folders lk.
Proof.
  unfold generate_dynamic_classes.
  destruct (String.eqb (script_folders lk) ""); [done|]. simpl.
  by apply folders_loop.
Qed.

Lemma get_tool_classes_wf (fs : gmap string fs_node) subclasses (lk : LocalConstants) :
  registry_wf (dynamic_classes lk) →
  registry_wf (dynamic_classes (get_tool_classes fs subclasses lk).1).
Proof.
  intros Hwf. unfold get_tool_classes. simpl.
  destruct (dynamic_classes_generated lk); simpl; [done|].
  by apply generate_dynamic_classes_wf.
Qed.

(** Every registry the program reaches stores each class under the name
    derived from its script path. *)
Lemma reachable_wf (environ : gmap string string) (lk : LocalConstants) :
  reachable environ lk → registry_wf (dynamic_classes lk).
Proof.
  induction 1 as [|fs lk _ IH|fs subclasses lk _ IH|lk script_path _ IH].
  - intros name cls Hcls. simpl in Hcls. by rewrite lookup_empty in Hcls.
  - by apply generate_dynamic_classes_wf.
  - by apply get_tool_classes_wf.
  - by apply dynamic_class_from_script_wf.
Qed.

(** C7.  In every registry the program reaches, each class is stored
    under its own tool name, the name derived from its script path, so no
    two stored classes share a tool name.  The name a file is registered
    under is [os.path.splitext(os.path.basename(path))[0]] (for a file
    [stem.py] whose stem has a character other than a dot, that is [stem]);
    when that name is already registered the registry is left as it is,
    otherwise the new class is stored under it; the classes already
    registered stay unchanged, for one script and for a whole scan. *)
Theorem registry_names_unique_first_wins
    (environ : gmap string string) (lk : LocalConstants) (script_path : string) :
  reachable environ lk →
  (∀ name cls, dynamic_classes lk !! name = Some cls →
     TOOL_NAME cls = name ∧ script_name_of (SCRIPT_PATH cls) = name)
  ∧ (∀ name1 name2 cls1 cls2,
       dynamic_classes lk !! name1 = Some cls1 →
       dynamic_classes lk !! name2 = Some cls2 →
       TOOL_NAME cls1 = TOOL_NAME cls2 → name1 = name2 ∧ cls1 = cls2)
  ∧ (script_name_of script_path ∈ dom (dynamic_classes lk) →
     dynamic_class_from_script lk script_path = lk)
  ∧ (script_name_of script_path ∉ dom (dynamic_classes lk) →
     dynamic_classes (dynamic_class_from_script lk script_path)
     = <[script_name_of script_path :=
           make_class_from_script script_path (script_name_of script_path)]>
         (dynamic_classes lk))
  ∧ (∀ name cls, dynamic_classes lk !! name = Some cls →
       dynamic_classes (dynamic_class_from_script lk script_path) !! name = Some cls)
  ∧ (∀ fs name cls, dynamic_classes lk !! name = Some cls →
       dynamic_classes (generate_dynamic_classes fs lk) !! name = Some cls)
  ∧ (∀ folder stem, rfind_opt stem "/" = None → has_non_dot stem = true →
       script_name_of (join folder (stem +:+ ".py")) = stem).
Proof.
  intros Hreach. pose proof (reachable_wf environ lk Hreach) as Hwf.
  split_and!.
  - intros name cls Hcls. by destruct (Hwf name cls Hcls) as (? & ? & ?).
  - intros name1 name2 cls1 cls2 H1 H2 Heq.
    destruct (Hwf name1 cls1 H1) as (Hn1 & _ & _).
    destruct (Hwf name2 cls2 H2) as (Hn2 & _ & _).
    assert (name1 = name2) as -> by congruence.
    split; [done | congruence].
  - apply dynamic_class_from_script_known.
  - apply dynamic_class_from_script_new.
  - intros name cls. apply dynamic_class_from_script_keeps.
  - intros fs name cls. apply generate_dynamic_classes_keeps.
  - intros folder stem. apply script_name_of_py.
Qed.

(** The registry after a scan of [/scripts], and a second [a.py] found in
    a sub-folder. *)
Lemma registry_names_unique_first_wins_witness :
  let lk := generate_dynamic_classes scripts_before (lk_initial environ_scripts) in
  dynamic_class_from_script lk "/scripts/sub/a.py" = lk
  ∧ dynamic_classes lk !! "a"
    = Some {| TOOL_NAME := "a"; TOOL_TIP := "/scripts/a.py";
              SCRIPT_PATH := "/scripts/a.py" |}.
Proof.
  intros lk.
  destruct (registry_names_unique_first_wins environ_scripts lk "/scripts/sub/a.py")
    as (_ & _ & Hknown & _).
  - apply reachable_generate, reachable_initial.
  - split; [|vm_compute; reflexivity].
    apply Hknown. apply (bool_decide_unpack _). vm_compute. reflexivity.
Defined.

(* ===================================================================== *)
(** * Proofs: scanning once, and scanning again *)
(* ===================================================================== *)

Lemma generate_dynamic_classes_flag (fs : gmap string fs_node) (lk : LocalConstants) :
  (script_folders lk = "" ∧ generate_dynamic_classes fs lk = lk)
  ∨ dynamic_classes_generated (generate_dynamic_classes fs lk) = true.
Proof.
  unfold generate_dynamic_classes.
  destruct (String.eqb_spec (script_folders lk) "") as [Heq|Hne]; [by left|by right].
Qed.




(** The folder of [a.py], [b.py] and [notes.txt]: two classes after the
    first scan, the same two after [get_tool_classes] has run again over
    the folder with [c.py] added, and three after
    [generate_dynamic_classes]. *)
Example scan_of_scripts_folder :
  let lk1 := (get_tool_classes scripts_before [] (lk_initial environ_scripts)).1 in
  let lk2 := (get_tool_classes scripts_after [] lk1).1 in
  let lk3 := generate_dynamic_classes scripts_after lk2 in
  dom (dynamic_classes lk1) = {["a"; "b"]}
  ∧ lk2 = lk1
  ∧ dom (dynamic_classes lk3) = {["a"; "b"; "c"]}
  ∧ dynamic_classes lk3 !! "a" = dynamic_classes lk1 !! "a"
  ∧ dynamic_classes lk3 !! "b" = dynamic_classes lk1 !! "b".
Proof. vm_compute. split_and!; reflexivity. Qed.


(* ===================================================================== *)
(** * Proofs: a missing [TOOL_DOCK_SCRIPT_FOLDERS] *)
(* ===================================================================== *)

Lemma generate_from_folder_missing (fs : gmap string fs_node) (lk : LocalConstants)
    (script_folder : string) :
  fs !! script_folder = None → generate_from_folder fs lk script_folder = lk.
Proof.
  intros Hnone. unfold generate_from_folder, path_exists.
  destruct (String.eqb script_folder ""); [done|].
  rewrite bool_decide_eq_false_2; [done|].
  rewrite Hnone. by intros [? ?].
Qed.

(** A scan with a single configured folder that does not exist. *)
Lemma generate_missing_folder (fs : gmap string fs_node) (lk : LocalConstants)
    (script_folder : string) :
  script_folders lk = script_folder →
  script_folder ≠ "" →
  split_on ";" script_folder = [script_folder] →
  fs !! script_folder = None →
  generate_dynamic_classes fs lk
  = {| dynamic_classes_generated := true;
       dynamic_classes := dynamic_classes lk;
       script_folders := script_folder |}.
Proof.
  intros Hsf Hne Hsplit Hnone. unfold generate_dynamic_classes.
  rewrite Hsf, Hsplit.
  destruct (String.eqb_spec script_folder "") as [?|_]; [done|].
  simpl. rewrite generate_from_folder_missing by done. by rewrite Hsf.
Qed.

(** C4, as the code has it.  Without [TOOL_DOCK_SCRIPT_FOLDERS] in the
    environment the configured folders are the one built-in default
    folder.  On a machine without that folder a scan ends with an empty
    registry and returns only the given subclasses.  The folder list is
    empty only when the variable is set to the empty string, and then a
    scan changes nothing. *)
Theorem missing_script_folders_uses_default
    (environ : gmap string string) (fs : gmap string fs_node)
    (subclasses : list DynamicClass) :
  environ !! env_script_folders = None →
  script_folders (lk_initial environ) = default_script_folders
  ∧ split_on ";" (script_folders (lk_initial environ)) = [default_script_folders]
  ∧ (fs !! default_script_folders = None →
     get_tool_classes fs subclasses (lk_initial environ)
     = ({| dynamic_classes_generated := true;
           dynamic_classes := ∅;
           script_folders := default_script_folders |}, subclasses))
  ∧ (∀ environ' : gmap string string,
       environ' !! env_script_folders = Some "" →
       get_tool_classes fs subclasses (lk_initial environ')
       = (lk_initial environ', subclasses)).
Proof.
  intros Henv.
  assert (script_folders (lk_initial environ) = default_script_folders) as Hsf.
  { unfold lk_initial. simpl. by rewrite Henv. }
  split_and!.
  - done.
  - rewrite Hsf. reflexivity.
  - intros Hnone. unfold get_tool_classes.
    change (dynamic_classes_generated (lk_initial environ)) with false. simpl.
    rewrite (generate_missing_folder fs (lk_initial environ) default_script_folders)
      by done.
    simpl. by rewrite map_to_list_empty, app_nil_r.
  - intros environ' Henv'. unfold get_tool_classes, lk_initial. simpl.
    rewrite Henv'. simpl. unfold generate_dynamic_classes. simpl.
    by rewrite map_to_list_empty, app_nil_r.
Qed.

Lemma missing_script_folders_uses_default_witness :
  script_folders (lk_initial ∅) = default_script_folders
  ∧ split_on ";" (script_folders (lk_initial ∅)) = [default_script_folders]
  ∧ ((∅ : gmap string fs_node) !! default_script_folders = None →
     get_tool_classes ∅ [] (lk_initial ∅)
     = ({| dynamic_classes_generated := true;
           dynamic_classes := ∅;
           script_folders := default_script_folders |}, []))
  ∧ (∀ environ' : gmap string string,
       environ' !! env_script_folders = Some "" →
       get_tool_classes ∅ [] (lk_initial environ')
       = (lk_initial environ', [])).
Proof.
  apply (missing_script_folders_uses_default ∅ ∅ []).
  reflexivity.
Defined.

(** C4 as stated fails: with the variable absent the folder list is not
    empty, and on a machine where the default folder exists and holds
    [a.py] the scan registers the class [a]. *)
Lemma missing_script_folders_not_empty :
  (∅ : gmap string string) !! env_script_folders = None
  ∧ split_on ";" (script_folders (lk_initial ∅))
    = ["D:/Google Drive/Scripting/_Scrsipts"]
  ∧ TOOL_NAME <$>
      dynamic_classes (get_tool_classes default_folder_present [] (lk_initial ∅)).1 !! "a"
    = Some "a".
Proof. split_and!; vm_compute; reflexivity. Qed.

(* ===================================================================== *)
(** * Proofs: running a generated class *)
(* ===================================================================== *)

Lemma run_globals_name (path_name : string) init_globals (run_name : string) :
  run_globals path_name init_globals run_name !! "__name__" = Some (PStr run_name).
Proof. unfold run_globals. by rewrite lookup_insert_eq. Qed.

Lemma run_globals_file (path_name : string) init_globals (run_name : string) :
  run_globals path_name init_globals run_name !! "__file__" = Some (PStr path_name).
Proof.
  unfold run_globals. rewrite lookup_insert_ne by done.
  by rewrite lookup_insert_eq.
Qed.

Lemma run_globals_other (path_name : string) (module_globals : gmap string pyval)
    (run_name x : string) :
  x ∉ runpy_names →
  run_globals path_name (Some module_globals) run_name !! x
  = (module_globals ∪ new_module_dict run_name) !! x.
Proof.
  unfold runpy_names. rewrite !not_elem_of_cons. intros (H1 & H2 & H3 & H4 & _).
  unfold run_globals. by rewrite !lookup_insert_ne by done.
Qed.

(** C2, as the code has it.  [run] executes the code of the script file
    with [__name__] set to ["__main__"] and [__file__] to the script path,
    in a namespace that [runpy] builds for this run and seeds with the
    globals of [tool_dock_utils]: every global of that module, except the
    four names [runpy] sets itself, is bound to the same value when the
    script starts; apart from those four names and [__doc__], a name the
    module does not bind is unbound. *)
Theorem run_executes_script_as_main
    (files : gmap string (list stmt)) (module_globals : gmap string pyval)
    (cls : DynamicClass) (code : list stmt) :
  files !! SCRIPT_PATH cls = Some code →
  run files module_globals cls
  = exec_code code (run_globals (SCRIPT_PATH cls) (Some module_globals) "__main__")
  ∧ run_globals (SCRIPT_PATH cls) (Some module_globals) "__main__" !! "__name__"
    = Some (PStr "__main__")
  ∧ run_globals (SCRIPT_PATH cls) (Some module_globals) "__main__" !! "__file__"
    = Some (PStr (SCRIPT_PATH cls))
  ∧ (∀ x v, x ∉ runpy_names → module_globals !! x = Some v →
       run_globals (SCRIPT_PATH cls) (Some module_globals) "__main__" !! x = Some v)
  ∧ (∀ x, x ∉ runpy_names → x ≠ "__doc__" → module_globals !! x = None →
       run_globals (SCRIPT_PATH cls) (Some module_globals) "__main__" !! x = None).
Proof.
  intros Hcode. split_and!.
  - unfold run, run_path. simpl. by rewrite Hcode.
  - apply run_globals_name.
  - apply run_globals_file.
  - intros x v Hx Hv. rewrite run_globals_other by done.
    by apply lookup_union_Some_l.
  - intros x Hx Hdoc Hnone. rewrite run_globals_other by done.
    apply lookup_union_None. split; [done|].
    unfold runpy_names in Hx. rewrite !not_elem_of_cons in Hx.
    destruct Hx as (H1 & _ & _ & H4 & _).
    unfold new_module_dict. by rewrite !lookup_insert_ne, lookup_empty by done.
Qed.

Lemma run_executes_script_as_main_witness :
  run script_files tool_dock_utils_globals (make_class_from_script "/scripts/a.py" "a")
  = exec_code [SAssign "style" (EName "background_form")]
      (run_globals "/scripts/a.py" (Some tool_dock_utils_globals) "__main__")
  ∧ run_globals "/scripts/a.py" (Some tool_dock_utils_globals) "__main__" !! "__name__"
    = Some (PStr "__main__").
Proof.
  destruct (run_executes_script_as_main script_files tool_dock_utils_globals
              (make_class_from_script "/scripts/a.py" "a")
              [SAssign "style" (EName "background_form")])
    as (Hrun & Hname & _).
  - reflexivity.
  - by split.
Defined.

(** C2 as stated fails: the namespace of the script holds the bindings of
    the framework's module.  The script [style = background_form] runs to
    its end, reading the module's [background_form], and the final globals
    still hold the module's [lk] and [PY_2]. *)
Lemma run_namespace_holds_module_globals :
  ∃ final_globals : gmap string pyval,
    run script_files tool_dock_utils_globals (make_class_from_script "/scripts/a.py" "a")
    = Finished final_globals
    ∧ final_globals !! "style" = Some (PStr "background-color:rgb({0}, {1}, {2})")
    ∧ final_globals !! "lk" = Some (PObj "lk")
    ∧ final_globals !! "PY_2" = Some (PBool true)
    ∧ final_globals !! "__name__" = Some (PStr "__main__").
Proof. eexists. split; [vm_compute; reflexivity|]. split_and!; reflexivity. Qed.

(* ===================================================================== *)
(** * Proofs: keys in which the namespace is only the prefix *)
(* ===================================================================== *)












(* ===================================================================== *)
(** * More on the settings: missing keys, saving, loading *)
(* ===================================================================== *)

(** X2.  A key that is not in the settings reads back as the default the
    caller gave, whatever it is: [None] when no default is given, and a
    boolean default unchanged (the conversion maps [True] to [True] and
    [False] to [False]). *)
Theorem get_value_missing_key
    (settings : gmap string pyval) (key : string) (default_ : pyval) :
  settings !! key = None →
  get_value settings key default_ = default_.
Proof.
  intros Hnone. unfold get_value, value. rewrite Hnone. simpl.
  destruct default_ as [|[]| | | | |]; reflexivity.
Qed.

Lemma get_value_missing_key_witness :
  get_value (<["dock/size" := PInt 3]> ∅) "dock/visible" (PBool true) = PBool true.
Proof.
  apply (get_value_missing_key (<["dock/size" := PInt 3]> ∅) "dock/visible" (PBool true)).
  reflexivity.
Defined.

(** The file after [save_tooldock_settings], key by key. *)
Lemma save_file_lookup
    (disk : gmap string (gmap string pyval)) (browsed : option string)
    (settings : gmap string pyval) (current_tooldock path : string) :
  path ≠ "" →
  (save_tooldock_settings disk browsed settings current_tooldock (Some path)).2
  = Some path
  ∧ (∀ key,
       open_settings
         (save_tooldock_settings disk browsed settings current_tooldock (Some path)).1
         path !! key
       = if decide (key = "tooldock") then Some (PStr current_tooldock)
         else if startswith key current_tooldock
                 && bool_decide (is_Some (settings !! key))
              then settings !! key
              else open_settings disk path !! key)
  ∧ (∀ other,
       other ≠ path →
       (save_tooldock_settings disk browsed settings current_tooldock (Some path)).1
         !! other = disk !! other).
Proof.
  intros Hpath. unfold save_tooldock_settings.
  destruct path as [|c path]; [done|]. simpl. split_and!.
  - done.
  - intros key. unfold open_settings at 1. rewrite lookup_insert_eq. simpl.
    unfold setValue.
    case_decide as Hkey; [subst; by rewrite lookup_insert_eq|].
    rewrite lookup_insert_ne by done. rewrite save_loop_lookup.
    rewrite andb_comm.
    destruct (startswith key current_tooldock); simpl; [|done].
    case_bool_decide as Hin.
    + apply elem_of_allKeys in Hin as Hsome.
      rewrite bool_decide_eq_true_2 by done. destruct Hsome as [v Hv].
      by rewrite get_value_no_default, Hv.
    + rewrite bool_decide_eq_false_2; [done|]. by rewrite <- elem_of_allKeys.
  - intros other Hne. by rewrite lookup_insert_ne.
Qed.



Lemma open_settings_insert (disk : gmap string (gmap string pyval)) (path : string)
    (content : gmap string pyval) :
  open_settings (<[path := content]> disk) path = content.
Proof. unfold open_settings. by rewrite lookup_insert_eq. Qed.

Lemma open_settings_saved (disk : gmap string (gmap string pyval))
    (browsed : option string) (settings : gmap string pyval)
    (current_tooldock path : string) :
  path ≠ "" →
  (save_tooldock_settings disk browsed settings current_tooldock (Some path)).1
    !! path
  = Some (open_settings
            (save_tooldock_settings disk browsed settings current_tooldock (Some path)).1
            path).
Proof.
  intros Hpath. unfold save_tooldock_settings.
  destruct path as [|c path]; [done|]. simpl.
  by rewrite open_settings_insert, lookup_insert_eq.
Qed.

(** X4.  Saving the same settings to the same path twice leaves the disk
    as the first save left it. *)
Theorem save_twice_is_save_once
    (disk : gmap string (gmap string pyval)) (browsed browsed' : option string)
    (settings : gmap string pyval) (current_tooldock path : string) :
  path ≠ "" →
  (save_tooldock_settings
     (save_tooldock_settings disk browsed settings current_tooldock (Some path)).1
     browsed' settings current_tooldock (Some path)).1
  = (save_tooldock_settings disk browsed settings current_tooldock (Some path)).1.
Proof.
  intros Hpath.
  set (disk1 := (save_tooldock_settings disk browsed settings current_tooldock
                   (Some path)).1).
  destruct (save_file_lookup disk browsed settings current_tooldock path Hpath)
    as (_ & Hfile1 & Hother1).
  destruct (save_file_lookup disk1 browsed' settings current_tooldock path Hpath)
    as (_ & Hfile2 & Hother2).
  apply map_eq. intros p. destruct (decide (p = path)) as [->|Hne].
  - rewrite (open_settings_saved disk1 browsed' settings current_tooldock path Hpath).
    unfold disk1 at 2.
    rewrite (open_settings_saved disk browsed settings current_tooldock path Hpath).
    f_equal. apply map_eq. intros key. rewrite Hfile2. fold disk1.
    rewrite Hfile1. case_decide; [done|].
    by destruct (startswith key current_tooldock
                 && bool_decide (is_Some (settings !! key))).
  - by rewrite Hother2.
Qed.

Lemma save_twice_is_save_once_witness :
  (save_tooldock_settings
     (save_tooldock_settings ∅ None (<["dockA/visible" := PStr "true"]> ∅)
        "dockA" (Some "dockA.ini")).1
     None (<["dockA/visible" := PStr "true"]> ∅) "dockA" (Some "dockA.ini")).1
  = (save_tooldock_settings ∅ None (<["dockA/visible" := PStr "true"]> ∅)
       "dockA" (Some "dockA.ini")).1.
Proof.
  apply (save_twice_is_save_once ∅ None None (<["dockA/visible" := PStr "true"]> ∅)
           "dockA" "dockA.ini").
  done.
Defined.











(* ===================================================================== *)
(** * More on the scan: what is registered, and from which file *)
(* ===================================================================== *)

Lemma foldl_bind {A B C} (f : A → B → A) (g : C → list B) (a : A) (l : list C) :
  foldl f a (l ≫= g) = foldl (fun acc x => foldl f acc (g x)) a l.
Proof.
  revert a. induction l as [|x l IH]; intros a; [done|].
  rewrite bind_cons, foldl_app. apply IH.
Qed.

Lemma generate_as_one_loop (fs : gmap string fs_node) (lk : LocalConstants)
    (folders : list string) :
  foldl (generate_from_folder fs) lk folders
  = foldl dynamic_class_from_script lk
      (folders ≫= fun script_folder =>
         if String.eqb script_folder "" then []
         else if negb (path_exists fs script_folder) then []
         else get_paths_in_folder fs script_folder ".py").
Proof.
  rewrite foldl_bind. revert lk.
  induction folders as [|f folders IH]; intros lk; simpl; [done|].
  rewrite <- IH. f_equal. unfold generate_from_folder.
  destruct (String.eqb f ""); [done|].
  by destruct (negb (path_exists fs f)).
Qed.

(** Under each name the loop over script paths leaves the class that was
    there, or else the class of the first path with that name. *)
Lemma scripts_loop_first_match (script_paths : list string) (lk : LocalConstants)
    (name : string) :
  dynamic_classes (foldl dynamic_class_from_script lk script_paths) !! name
  = match dynamic_classes lk !! name with
    | Some cls => Some cls
    | None =>
        (fun script_path => make_class_from_script script_path name)
          <$> head (filter (fun script_path => script_name_of script_path = name)
                           script_paths)
    end.
Proof.
  revert lk. induction script_paths as [|p script_paths IH]; intros lk; simpl.
  - by destruct (dynamic_classes lk !! name).
  - rewrite IH. rewrite filter_cons.
    unfold dynamic_class_from_script at 1. case_bool_decide as Hin.
    + destruct (dynamic_classes lk !! name) as [cls|] eqn:Hcls; [done|].
      case_decide as Hname; [|done].
      subst. apply elem_of_dom in Hin as [cls' Hcls']. congruence.
    + simpl. destruct (decide (script_name_of p = name)) as [<-|Hne].
      * rewrite lookup_insert_eq.
        assert (dynamic_classes lk !! script_name_of p = None) as ->.
        { apply eq_None_not_Some. by rewrite <- elem_of_dom. }
        done.
      * by rewrite lookup_insert_ne.
Qed.

(** The registry after a scan, name by name. *)
Lemma generate_dynamic_classes_lookup
    (fs : gmap string fs_node) (lk : LocalConstants) (name : string) :
  dynamic_classes (generate_dynamic_classes fs lk) !! name
  = match dynamic_classes lk !! name with
    | Some cls => Some cls
    | None =>
        (fun script_path => make_class_from_script script_path name)
          <$> head (filter (fun script_path => script_name_of script_path = name)
                           (discovered_paths fs (script_folders lk)))
    end.
Proof.
  unfold generate_dynamic_classes.
  destruct (String.eqb_spec (script_folders lk) "") as [Heq|Hne].
  - rewrite Heq. by destruct (dynamic_classes lk !! name).
  - simpl. rewrite generate_as_one_loop. apply scripts_loop_first_match.
Qed.

(** X7.  After a scan, each name holds the class it held before; a name
    that was free holds the class of the first path, in the order of the
    scan (folders as configured, each folder walked top-down), whose
    derived name it is; a name that no discovered path has stays free. *)
Theorem scan_registers_first_path_per_name
    (fs : gmap string fs_node) (lk : LocalConstants) (name : string) :
  dynamic_classes (generate_dynamic_classes fs lk) !! name
  = match dynamic_classes lk !! name with
    | Some cls => Some cls
    | None =>
        (fun script_path => make_class_from_script script_path name)
          <$> head (filter (fun script_path => script_name_of script_path = name)
                           (discovered_paths fs (script_folders lk)))
    end.
Proof.
  apply generate_dynamic_classes_lookup.
Qed.

Lemma elem_of_discovered_paths (fs : gmap string fs_node) (script_folders : string)
    (script_path : string) :
  script_path ∈ discovered_paths fs script_folders ↔
  ∃ script_folder,
    script_folder ∈ split_on ";" script_folders
    ∧ script_folder ≠ ""
    ∧ is_Some (fs !! script_folder)
    ∧ script_path ∈ get_paths_in_folder fs script_folder ".py".
Proof.
  unfold discovered_paths. rewrite list_elem_of_bind. split.
  - intros (f & Hp & Hf). exists f.
    destruct (String.eqb f "") eqn:Heq; [by apply elem_of_nil in Hp|].
    apply String.eqb_neq in Heq.
    unfold path_exists in Hp. case_bool_decide as Hex; simpl in Hp;
      [done | by apply elem_of_nil in Hp].
  - intros (f & Hf & Hne & Hex & Hp). exists f. split; [|done].
    apply String.eqb_neq in Hne. rewrite Hne.
    unfold path_exists. by rewrite bool_decide_eq_true_2.
Qed.

Lemma endswith_join (a b extension : string) :
  endswith b extension = true → endswith (join a b) extension = true.
Proof.
  rewrite !endswith_spec. intros [p ->]. unfold join.
  destruct (startswith (p +:+ extension) "/"); [by exists p|].
  destruct (String.eqb a "" || endswith a "/").
  - exists (a +:+ p). by rewrite string_app_assoc.
  - exists (a +:+ "/" +:+ p). by rewrite !string_app_assoc.
Qed.

Lemma get_paths_in_folder_endswith (fs : gmap string fs_node)
    (root_folder extension_filter script_path : string) :
  script_path ∈ get_paths_in_folder fs root_folder extension_filter →
  endswith script_path extension_filter = true.
Proof.
  unfold get_paths_in_folder. rewrite list_elem_of_bind.
  intros ([[folder dirs] file_names] & Hp & _).
  apply list_elem_of_bind in Hp as (file_name & Hp & _).
  destruct (endswith file_name extension_filter) eqn:He;
    [|by apply elem_of_nil in Hp].
  apply list_elem_of_singleton in Hp as ->. by apply endswith_join.
Qed.

(** X8.  A scan registers nothing but scripts it found: a class that is
    in the registry after [generate_dynamic_classes] was there before, or
    it was made from a path that [get_paths_in_folder] yields for a
    configured, existing folder; that path ends with [.py], is the tool
    tip, and has the registered name as its derived name. *)
Theorem scan_registers_only_found_scripts
    (fs : gmap string fs_node) (lk : LocalConstants) (name : string)
    (cls : DynamicClass) :
  dynamic_classes (generate_dynamic_classes fs lk) !! name = Some cls →
  dynamic_classes lk !! name = Some cls
  ∨ ∃ script_folder,
      script_folder ∈ split_on ";" (script_folders lk)
      ∧ script_folder ≠ ""
      ∧ is_Some (fs !! script_folder)
      ∧ SCRIPT_PATH cls ∈ get_paths_in_folder fs script_folder ".py"
      ∧ endswith (SCRIPT_PATH cls) ".py" = true
      ∧ TOOL_TIP cls = SCRIPT_PATH cls
      ∧ TOOL_NAME cls = name
      ∧ script_name_of (SCRIPT_PATH cls) = name.
Proof.
  rewrite generate_dynamic_classes_lookup.
  destruct (dynamic_classes lk !! name) as [old|]; [by left|].
  intros Hcls. right.
  destruct (head _) as [p|] eqn:Hhead; [|done]. simpl in Hcls.
  injection Hcls as <-. simpl.
  apply head_Some_elem_of in Hhead.
  apply list_elem_of_filter in Hhead as [Hname Hin].
  apply elem_of_discovered_paths in Hin as (f & Hf & Hne & Hex & Hp).
  exists f. split_and!; try done.
  by eapply get_paths_in_folder_endswith.
Qed.

Lemma scan_registers_only_found_scripts_witness :
  dynamic_classes (lk_initial environ_scripts) !! "a"
  = Some (make_class_from_script "/scripts/a.py" "a")
  ∨ ∃ script_folder,
      script_folder ∈ split_on ";" (script_folders (lk_initial environ_scripts))
      ∧ script_folder ≠ ""
      ∧ is_Some (scripts_before !! script_folder)
      ∧ SCRIPT_PATH (make_class_from_script "/scripts/a.py" "a")
        ∈ get_paths_in_folder scripts_before script_folder ".py"
      ∧ endswith (SCRIPT_PATH (make_class_from_script "/scripts/a.py" "a")) ".py" = true
      ∧ TOOL_TIP (make_class_from_script "/scripts/a.py" "a")
        = SCRIPT_PATH (make_class_from_script "/scripts/a.py" "a")
      ∧ TOOL_NAME (make_class_from_script "/scripts/a.py" "a") = "a"
      ∧ script_name_of (SCRIPT_PATH (make_class_from_script "/scripts/a.py" "a")) = "a".
Proof.
  apply (scan_registers_only_found_scripts scripts_before (lk_initial environ_scripts)
           "a" (make_class_from_script "/scripts/a.py" "a")).
  vm_compute. reflexivity.
Defined.

(* ===================================================================== *)
(** * More on the folder walk *)
(* ===================================================================== *)

Lemma fs_node_nested_ind (P : fs_node → Prop) :
  P FsFile →
  (∀ entries, Forall (fun e => P e.2) entries → P (FsDir entries)) →
  ∀ n, P n.
Proof.
  intros Hfile Hdir. fix IH 1. intros [|entries]; [exact Hfile|].
  apply Hdir. induction entries as [|[name child] entries IHe]; constructor.
  - apply IH.
  - exact IHe.
Qed.

Lemma walk_node_dir (top : string) (entries : list (string * fs_node)) :
  walk_node top (FsDir entries)
  = (top, (filter (fun e => is_dir e.2 = true) entries).*1,
          (filter (fun e => is_dir e.2 = false) entries).*1)
    :: (entries ≫= fun e => walk_node (join top e.1) e.2).
Proof.
  simpl. f_equal.
  induction entries as [|[name child] entries IH]; [done|].
  rewrite bind_cons. simpl. by rewrite IH.
Qed.

(** The triples of [os.walk] are the directories reached from the top. *)
Lemma elem_of_walk_node (n : fs_node) (top folder : string)
    (dirs file_names : list string) :
  (folder, dirs, file_names) ∈ walk_node top n ↔
  ∃ entries,
    dir_in top n folder entries
    ∧ dirs = (filter (fun e => is_dir e.2 = true) entries).*1
    ∧ file_names = (filter (fun e => is_dir e.2 = false) entries).*1.
Proof.
  revert top. induction n as [|entries IH] using fs_node_nested_ind; intros top.
  - split; [intros Hin; by apply elem_of_nil in Hin|].
    intros (es & Hdir & _). inversion Hdir.
  - rewrite walk_node_dir, elem_of_cons, list_elem_of_bind. split.
    + intros [Heq|([name child] & Hin & He)].
      * injection Heq as -> -> ->. exists entries. split_and!; [constructor|done..].
      * rewrite Forall_forall in IH. simpl in Hin.
        apply (IH (name, child) He) in Hin as (es & Hdir & Hd & Hf).
        exists es. split_and!; [|done..]. by eapply dir_in_below.
    + intros (es & Hdir & Hd & Hf). inversion Hdir as [|? ? name child ? ? He Hsub]; subst.
      * by left.
      * right. exists (name, child). split; [|done].
        rewrite Forall_forall in IH. apply (IH (name, child) He).
        by exists es.
Qed.

(** X9.  [get_paths_in_folder] finds the files at every depth below the
    root folder, and only those: a path is yielded exactly when it is
    [os.path.join(folder, name)] for a directory [folder] reached from the
    root and an entry [name] of it that is not a directory and ends with
    the extension filter.  For a root that does not exist nothing is
    yielded. *)
Theorem get_paths_in_folder_finds_files_at_any_depth
    (fs : gmap string fs_node) (root_folder extension_filter script_path : string) :
  (script_path ∈ get_paths_in_folder fs root_folder extension_filter ↔
   ∃ n folder entries name child,
     fs !! root_folder = Some n
     ∧ dir_in root_folder n folder entries
     ∧ (name, child) ∈ entries
     ∧ is_dir child = false
     ∧ endswith name extension_filter = true
     ∧ script_path = join folder name)
  ∧ (fs !! root_folder = None →
     get_paths_in_folder fs root_folder extension_filter = []).
Proof.
  split.
  - unfold get_paths_in_folder, walk. rewrite list_elem_of_bind. split.
    + intros ([[folder dirs] file_names] & Hp & Hw).
      apply list_elem_of_bind in Hp as (name & Hp & Hname).
      destruct (endswith name extension_filter) eqn:He;
        [|by apply elem_of_nil in Hp].
      apply list_elem_of_singleton in Hp as ->.
      destruct (fs !! root_folder) as [n|]; [|by apply elem_of_nil in Hw].
      apply elem_of_walk_node in Hw as (entries & Hdir & _ & ->).
      apply list_elem_of_fmap in Hname as ([name' child] & -> & Hin).
      apply list_elem_of_filter in Hin as [Hfile Hin].
      by exists n, folder, entries, name', child.
    + intros (n & folder & entries & name & child & Hroot & Hdir & Hin & Hfile
              & He & ->).
      exists (folder, (filter (fun e => is_dir e.2 = true) entries).*1,
              (filter (fun e => is_dir e.2 = false) entries).*1).
      rewrite Hroot. split.
      * apply list_elem_of_bind. exists name. rewrite He.
        split; [by apply list_elem_of_singleton|].
        apply list_elem_of_fmap. exists (name, child). split; [done|].
        by apply list_elem_of_filter.
      * apply elem_of_walk_node. by exists entries.
  - intros Hnone. unfold get_paths_in_folder, walk. by rewrite Hnone.
Qed.

(** X10.  [get_tool_classes] returns the given subclasses followed by the
    classes of the registry as it is after the call: a class is in the
    returned list exactly when it is one of the subclasses or is
    registered under some name, and the list is as long as the subclasses
    and the registry together. *)
Theorem get_tool_classes_returns_registry
    (fs : gmap string fs_node) (subclasses : list DynamicClass)
    (lk : LocalConstants) (cls : DynamicClass) :
  (cls ∈ (get_tool_classes fs subclasses lk).2 ↔
   cls ∈ subclasses
   ∨ ∃ name, dynamic_classes (get_tool_classes fs subclasses lk).1 !! name = Some cls)
  ∧ length (get_tool_classes fs subclasses lk).2
    = (length subclasses
       + size (dynamic_classes (get_tool_classes fs subclasses lk).1))%nat.
Proof.
  unfold get_tool_classes. simpl.
  set (lk' := if negb (dynamic_classes_generated lk)
              then generate_dynamic_classes fs lk else lk).
  split.
  - rewrite elem_of_app, list_elem_of_fmap. split.
    + intros [Hin|([name cls'] & -> & Hin)]; [by left|].
      right. exists name. by apply elem_of_map_to_list.
    + intros [Hin|[name Hin]]; [by left|].
      right. exists (name, cls). split; [done|]. by apply elem_of_map_to_list.
  - by rewrite length_app, length_fmap, length_map_to_list.
Qed.

(* ===================================================================== *)
(** * More on the generated form *)
(* ===================================================================== *)




(* ===================================================================== *)
(** * [import_extra_modules]: the refresh *)
(* ===================================================================== *)

Lemma pop_loop_key_error (mod_key : string) (names : list string) :
  foldl (pop_if_named mod_key) RaisedKeyError names = RaisedKeyError.
Proof. induction names as [|n names IH]; [done|]. exact IH. Qed.

Lemma pop_if_named_unfold (mod_key : string) (sys_modules : gmap string pyval)
    (name : string) :
  pop_if_named mod_key (ModulesAfter sys_modules) name
  = if named_in mod_key name
    then match sys_modules !! mod_key with
         | Some _ => ModulesAfter (delete mod_key sys_modules)
         | None => RaisedKeyError
         end
    else ModulesAfter sys_modules.
Proof.
  unfold pop_if_named, named_in.
  destruct (String.eqb name ""); [done|]. simpl.
  by destruct (occurs_in name mod_key).
Qed.

(** The inner loop for one key, by the number of configured names the key
    holds. *)
Lemma pop_loop (mod_key : string) (names : list string)
    (sys_modules : gmap string pyval) :
  foldl (pop_if_named mod_key) (ModulesAfter sys_modules) names
  = match filter (fun n => named_in mod_key n = true) names with
    | [] => ModulesAfter sys_modules
    | [_] =>
        match sys_modules !! mod_key with
        | Some _ => ModulesAfter (delete mod_key sys_modules)
        | None => RaisedKeyError
        end
    | _ :: _ :: _ => RaisedKeyError
    end.
Proof.
  revert sys_modules. induction names as [|n names IH]; intros m; [done|].
  cbn [foldl]. rewrite pop_if_named_unfold, filter_cons.
  destruct (named_in mod_key n) eqn:Hn.
  - rewrite decide_True by done.
    destruct (m !! mod_key) as [v|] eqn:Hm.
    + rewrite IH, lookup_delete_eq.
      by destruct (filter _ names) as [|? [|? ?]].
    + rewrite pop_loop_key_error.
      by destruct (filter _ names) as [|? ?].
  - rewrite decide_False by done. apply IH.
Qed.

Lemma refresh_loop_key_error (names keys : list string) :
  foldl (fun state mod_key => foldl (pop_if_named mod_key) state names)
        RaisedKeyError keys
  = RaisedKeyError.
Proof.
  induction keys as [|k keys IH]; [done|].
  simpl. by rewrite pop_loop_key_error.
Qed.

(** The outer loop over distinct keys that are all loaded, none of which
    holds two configured names. *)
Lemma refresh_loop_removes (names keys : list string)
    (sys_modules : gmap string pyval) :
  NoDup keys →
  (∀ k, k ∈ keys → is_Some (sys_modules !! k)) →
  (∀ k, k ∈ keys →
        (length (filter (fun n => named_in k n = true) names) ≤ 1)%nat) →
  ∃ after : gmap string pyval,
    foldl (fun state mod_key => foldl (pop_if_named mod_key) state names)
          (ModulesAfter sys_modules) keys
    = ModulesAfter after
    ∧ ∀ k, after !! k
           = if bool_decide (k ∈ keys
                             ∧ filter (fun n => named_in k n = true) names ≠ [])
             then None else sys_modules !! k.
Proof.
  revert sys_modules. induction keys as [|k0 keys IH]; intros m Hnd Hin Hle.
  - exists m. split; [done|]. intros k.
    rewrite bool_decide_eq_false_2; [done|]. intros [H _]. by apply elem_of_nil in H.
  - apply NoDup_cons in Hnd as [Hk0 Hnd]. cbn [foldl]. rewrite pop_loop.
    destruct (Hin k0 ltac:(left)) as [v0 Hv0].
    pose proof (Hle k0 ltac:(left)) as Hle0.
    destruct (filter (fun n => named_in k0 n = true) names) as [|n0 [|n1 rest]] eqn:Hf.
    + destruct (IH m Hnd) as (after & Hrun & Hlook).
      { intros k Hk. apply Hin. by right. }
      { intros k Hk. apply Hle. by right. }
      exists after. split; [done|]. intros k. rewrite Hlook.
      destruct (decide (k = k0)) as [->|Hne].
      * rewrite Hf. by rewrite !bool_decide_eq_false_2 by (by intros [? ?]).
      * erewrite (bool_decide_ext (k ∈ keys ∧ _)); [reflexivity|].
        rewrite elem_of_cons.
        split; intros [H1 H2]; (split; [|done]); [by right | by destruct H1].
    + rewrite Hv0.
      destruct (IH (delete k0 m) Hnd) as (after & Hrun & Hlook).
      { intros k Hk. rewrite lookup_delete_ne; [apply Hin; by right|].
        intros <-. done. }
      { intros k Hk. apply Hle. by right. }
      exists after. split; [done|]. intros k. rewrite Hlook.
      destruct (decide (k = k0)) as [->|Hne].
      * rewrite bool_decide_eq_false_2 by (by intros [? ?]).
        rewrite lookup_delete_eq.
        rewrite bool_decide_eq_true_2; [done|]. split; [left|by rewrite Hf].
      * rewrite lookup_delete_ne by done.
        erewrite (bool_decide_ext (k ∈ keys ∧ _)); [reflexivity|].
        rewrite elem_of_cons.
        split; intros [H1 H2]; (split; [|done]); [by right | by destruct H1].
    + simpl in Hle0. lia.
Qed.

(** The outer loop when one of the keys holds two configured names. *)
Lemma refresh_loop_raises (names keys : list string)
    (sys_modules : gmap string pyval) (mod_key : string) :
  NoDup keys →
  (∀ k, k ∈ keys → is_Some (sys_modules !! k)) →
  mod_key ∈ keys →
  (2 ≤ length (filter (fun n => named_in mod_key n = true) names))%nat →
  foldl (fun state mod_key => foldl (pop_if_named mod_key) state names)
        (ModulesAfter sys_modules) keys
  = RaisedKeyError.
Proof.
  revert sys_modules. induction keys as [|k0 keys IH]; intros m Hnd Hin Hkey Htwo.
  - by apply elem_of_nil in Hkey.
  - apply NoDup_cons in Hnd as [Hk0 Hnd]. cbn [foldl]. rewrite pop_loop.
    destruct (Hin k0 ltac:(left)) as [v0 Hv0].
    apply elem_of_cons in Hkey as [->|Hkey].
    + destruct (filter (fun n => named_in k0 n = true) names) as [|n0 [|n1 rest]];
        simpl in Htwo; try lia.
      apply refresh_loop_key_error.
    + destruct (filter (fun n => named_in k0 n = true) names) as [|n0 [|n1 rest]].
      * apply IH; try done. intros k Hk. apply Hin. by right.
      * rewrite Hv0. apply IH; try done.
        intros k Hk. rewrite lookup_delete_ne; [apply Hin; by right|].
        intros <-. done.
      * apply refresh_loop_key_error.
Qed.

Lemma import_loop_key_error
    (import_module : string → gmap string pyval → option (gmap string pyval))
    (names : list string) :
  foldl (import_named import_module) RaisedKeyError names = RaisedKeyError.
Proof. induction names as [|n names IH]; [done|]. exact IH. Qed.

Lemma sys_modules_keys (sys_modules : gmap string pyval) :
  NoDup (map_to_list sys_modules).*1
  ∧ ∀ k, k ∈ (map_to_list sys_modules).*1 ↔ is_Some (sys_modules !! k).
Proof.
  split; [apply NoDup_fst_map_to_list|].
  intros k. rewrite list_elem_of_fmap. split.
  - intros ([k' v] & -> & Hin). apply elem_of_map_to_list in Hin. by exists v.
  - intros [v Hv]. exists (k, v). split; [done|]. by apply elem_of_map_to_list.
Qed.

(** X12.  [import_extra_modules(refresh=True)] raises [KeyError] as soon
    as a loaded module's name holds two of the configured names (as
    [my_tools_extra] holds [my_tools] and [my_tools_extra]): the module is
    popped for the first name and popped again for the second. *)
Theorem refresh_raises_key_error_on_second_match
    (import_module : string → gmap string pyval → option (gmap string pyval))
    (environ : gmap string string) (sys_modules : gmap string pyval)
    (mod_key : string) :
  is_Some (sys_modules !! mod_key) →
  (2 ≤ length (filter (fun n => named_in mod_key n = true)
                 (split_on ";" (default "" (environ !! env_extra_modules)))))%nat →
  import_extra_modules import_module environ true sys_modules = RaisedKeyError.
Proof.
  intros Hloaded Htwo. unfold import_extra_modules, refresh_modules.
  destruct (sys_modules_keys sys_modules) as [Hnd Hkeys].
  rewrite (refresh_loop_raises _ _ sys_modules mod_key); try done.
  - apply import_loop_key_error.
  - intros k Hk. by apply Hkeys.
  - by apply Hkeys.
Qed.

Lemma refresh_raises_key_error_on_second_match_witness :
  import_extra_modules (fun _ sys_modules => Some sys_modules)
    (<[env_extra_modules := "my_tools;my_tools_extra"]> ∅) true
    (<["my_tools_extra" := PObj "my_tools_extra"]> ∅)
  = RaisedKeyError.
Proof.
  apply (refresh_raises_key_error_on_second_match
           (fun _ sys_modules => Some sys_modules)
           (<[env_extra_modules := "my_tools;my_tools_extra"]> ∅)
           (<["my_tools_extra" := PObj "my_tools_extra"]> ∅) "my_tools_extra").
  - by eexists.
  - vm_compute. lia.
Defined.

(** [sys.modules] after a refresh that raises nothing, key by key. *)
Lemma refresh_modules_lookup
    (modules_to_import : list string) (sys_modules : gmap string pyval) :
  (∀ k, is_Some (sys_modules !! k) →
        (length (filter (fun n => named_in k n = true) modules_to_import) ≤ 1)%nat) →
  ∃ after : gmap string pyval,
    refresh_modules modules_to_import sys_modules = ModulesAfter after
    ∧ ∀ k, after !! k
           = if bool_decide
                  (filter (fun n => named_in k n = true) modules_to_import = [])
             then sys_modules !! k else None.
Proof.
  intros Hle. unfold refresh_modules.
  destruct (sys_modules_keys sys_modules) as [Hnd Hkeys].
  destruct (refresh_loop_removes modules_to_import (map_to_list sys_modules).*1
              sys_modules Hnd) as (after & Hrun & Hlook).
  { intros k Hk. by apply Hkeys. }
  { intros k Hk. by apply Hle, Hkeys. }
  exists after. split; [done|]. intros k. rewrite Hlook.
  case_bool_decide as H1; case_bool_decide as H2; try done.
  - by destruct H1.
  - apply eq_None_not_Some. intros Hs. apply H1. split; [|done].
    by apply Hkeys.
Qed.

(** X13.  When no loaded module's name holds two of the configured names,
    the refresh raises nothing and removes from [sys.modules] exactly the
    modules whose name holds a configured name anywhere in it (not only as
    the package prefix); every other module stays loaded. *)
Theorem refresh_removes_modules_holding_a_name
    (modules_to_import : list string) (sys_modules : gmap string pyval) :
  (∀ k, is_Some (sys_modules !! k) →
        (length (filter (fun n => named_in k n = true) modules_to_import) ≤ 1)%nat) →
  ∃ after : gmap string pyval,
    refresh_modules modules_to_import sys_modules = ModulesAfter after
    ∧ ∀ k, after !! k
           = if bool_decide
                  (filter (fun n => named_in k n = true) modules_to_import = [])
             then sys_modules !! k else None.
Proof.
  apply refresh_modules_lookup.
Qed.

Lemma refresh_removes_modules_holding_a_name_witness :
  ∃ after : gmap string pyval,
    refresh_modules ["tools"]
      (<["my_tools" := PObj "my_tools"]> (<["os" := PObj "os"]> ∅))
    = ModulesAfter after
    ∧ after !! "my_tools" = None
    ∧ after !! "os" = Some (PObj "os").
Proof.
  destruct (refresh_removes_modules_holding_a_name ["tools"]
              (<["my_tools" := PObj "my_tools"]> (<["os" := PObj "os"]> ∅)))
    as (after & Hrun & Hlook).
  - intros k _. rewrite filter_cons, filter_nil. case_decide; simpl; lia.
  - exists after. split; [exact Hrun|]. rewrite !Hlook. split; reflexivity.
Defined.

(** X14.  Without [TOOL_DOCK_EXTRA_MODULES] in the environment, or with
    the variable set to the empty string, [import_extra_modules] imports
    nothing and leaves [sys.modules] as it is, with or without refresh. *)
Theorem import_extra_modules_without_names
    (import_module : string → gmap string pyval → option (gmap string pyval))
    (environ : gmap string string) (refresh : bool)
    (sys_modules : gmap string pyval) :
  default "" (environ !! env_extra_modules) = "" →
  import_extra_modules import_module environ refresh sys_modules
  = ModulesAfter sys_modules.
Proof.
  intros Henv. unfold import_extra_modules. rewrite Henv.
  change (split_on ";" "") with [""].
  destruct refresh; [|done].
  destruct (refresh_modules_lookup [""] sys_modules)
    as (after & -> & Hlook).
  { intros k _. simpl. lia. }
  simpl. f_equal. apply map_eq. intros k. by rewrite Hlook.
Qed.

Lemma import_extra_modules_without_names_witness :
  import_extra_modules (fun _ _ => None) ∅ true (<["os" := PObj "os"]> ∅)
  = ModulesAfter (<["os" := PObj "os"]> ∅).
Proof.
  apply (import_extra_modules_without_names (fun _ _ => None) ∅ true
           (<["os" := PObj "os"]> ∅)).
  reflexivity.
Defined.

(* ===================================================================== *)
(** * [get_preview_from_script] *)
(* ===================================================================== *)

(** X15.  Without [max_line_count], or with one that is not below the
    number of lines, the preview is the script path, an empty line, every
    line of the script and a final newline, with no truncation mark. *)
Theorem preview_shows_whole_script
    (files : gmap string (list string)) (script_path : string)
    (script_lines : list string) (max_line_count : option Z) :
  files !! script_path = Some script_lines →
  (max_line_count = None
   ∨ ∃ n, max_line_count = Some n ∧ (Z.of_nat (length script_lines) ≤ n)%Z) →
  get_preview_from_script files script_path max_line_count
  = Some (script_path +:+ newline +:+ newline +:+ str_join script_lines +:+ newline).
Proof.
  intros Hfile Hmax. unfold get_preview_from_script. rewrite Hfile.
  assert (∀ n, (Z.of_nat (length script_lines) ≤ n)%Z →
               py_list_upto script_lines n = script_lines
               ∧ (n <? Z.of_nat (length script_lines))%Z = false) as Hall.
  { intros n Hn. split; [|lia]. unfold py_list_upto.
    destruct (Z.leb_spec 0 n); [|lia]. apply take_ge. lia. }
  destruct Hmax as [->|(n & -> & Hn)].
  - destruct (Hall (Z.of_nat (length script_lines))) as [-> ->]; [lia|done].
  - by destruct (Hall n Hn) as [-> ->].
Qed.

Lemma preview_shows_whole_script_witness :
  get_preview_from_script (<["a.py" := ["import os"; "print(os.name)"]]> ∅) "a.py"
    (Some 5%Z)
  = Some ("a.py" +:+ newline +:+ newline
          +:+ str_join ["import os"; "print(os.name)"] +:+ newline).
Proof.
  apply (preview_shows_whole_script _ "a.py" ["import os"; "print(os.name)"] (Some 5%Z)).
  - reflexivity.
  - right. exists 5%Z. split; [reflexivity|]. simpl. lia.
Defined.

(** X16.  With a [max_line_count] below the number of lines the preview
    shows [script_lines[:max_line_count]] followed by the mark [......]:
    the first [max_line_count] lines when the count is not negative, and
    all but the last [-max_line_count] lines when it is negative. *)
Theorem preview_truncates_and_marks
    (files : gmap string (list string)) (script_path : string)
    (script_lines : list string) (n : Z) :
  files !! script_path = Some script_lines →
  (n < Z.of_nat (length script_lines))%Z →
  get_preview_from_script files script_path (Some n)
  = Some (script_path +:+ newline +:+ newline
          +:+ (str_join (py_list_upto script_lines n) +:+ "......") +:+ newline)
  ∧ ((0 ≤ n)%Z → py_list_upto script_lines n = take (Z.to_nat n) script_lines)
  ∧ ((n < 0)%Z →
     py_list_upto script_lines n
     = take (length script_lines - Z.to_nat (- n)) script_lines).
Proof.
  intros Hfile Hn. split_and!.
  - unfold get_preview_from_script. rewrite Hfile.
    by destruct (Z.ltb_spec n (Z.of_nat (length script_lines))); [|lia].
  - intros Hpos. unfold py_list_upto. by destruct (Z.leb_spec 0 n); [|lia].
  - intros Hneg. unfold py_list_upto. destruct (Z.leb_spec 0 n); [lia|].
    f_equal. lia.
Qed.

Lemma preview_truncates_and_marks_witness :
  get_preview_from_script (<["a.py" := ["import os"; "print(os.name)"]]> ∅) "a.py"
    (Some 1%Z)
  = Some ("a.py" +:+ newline +:+ newline +:+ ("import os" +:+ "......") +:+ newline).
Proof.
  destruct (preview_truncates_and_marks
              (<["a.py" := ["import os"; "print(os.name)"]]> ∅) "a.py"
              ["import os"; "print(os.name)"] 1%Z) as (Hpreview & _ & _).
  - reflexivity.
  - simpl. lia.
  - exact Hpreview.
Defined.

(* ===================================================================== *)
(** * [all_subclasses] *)
(* ===================================================================== *)

Lemma pyclass_nested_ind (P : pyclass → Prop) :
  (∀ name subclasses, Forall P subclasses → P (PyClass name subclasses)) →
  ∀ cls, P cls.
Proof.
  intros Hcls. fix IH 1. intros [name subclasses]. apply Hcls.
  induction subclasses as [|c subclasses IHs]; constructor.
  - apply IH.
  - exact IHs.
Qed.

Lemma all_subclasses_unfold (name : string) (subclasses : list pyclass) :
  all_subclasses (PyClass name subclasses)
  = list_to_set (class_name <$> subclasses)
    ∪ ⋃ (all_subclasses <$> subclasses).
Proof.
  simpl. f_equal.
  induction subclasses as [|c subclasses IH]; [done|].
  rewrite fmap_cons, union_list_cons. by rewrite IH.
Qed.

(** X17.  [all_subclasses(cls)] holds the subclasses of [cls] at every
    depth and nothing else: a class is in the set exactly when it is
    listed by [cls.__subclasses__()] or is among all the subclasses of a
    class listed there. *)
Theorem all_subclasses_at_every_depth (cls : pyclass) (name : string) :
  name ∈ all_subclasses cls ↔ subclass_below cls name.
Proof.
  revert name. induction cls as [cname subclasses IH] using pyclass_nested_ind.
  intros name. rewrite all_subclasses_unfold, elem_of_union, elem_of_list_to_set,
    list_elem_of_fmap, elem_of_union_list.
  rewrite Forall_forall in IH. split.
  - intros [(c & -> & Hc)|(X & HX & Hname)].
    + by apply subclass_direct.
    + apply list_elem_of_fmap in HX as (c & -> & Hc).
      apply (subclass_indirect _ c); [done|]. by apply IH.
  - intros Hbelow. inversion Hbelow as [? c Hc|? c ? Hc Hsub]; subst; simpl in Hc.
    + left. by exists c.
    + right. exists (all_subclasses c). split.
      * apply list_elem_of_fmap. by exists c.
      * by apply IH.
Qed.

(* ===================================================================== *)
(** * Scanning an unchanged file system again *)
(* ===================================================================== *)

Lemma LocalConstants_eq (lk1 lk2 : LocalConstants) :
  dynamic_classes_generated lk1 = dynamic_classes_generated lk2 →
  dynamic_classes lk1 = dynamic_classes lk2 →
  script_folders lk1 = script_folders lk2 →
  lk1 = lk2.
Proof. destruct lk1, lk2. simpl. by intros -> -> ->. Qed.

(** X18.  Calling [generate_dynamic_classes] again over the same file
    system changes nothing: the registry, the flag and the configured
    folders are as the first call left them. *)
Theorem rescan_of_unchanged_folders_changes_nothing
    (fs : gmap string fs_node) (lk : LocalConstants) :
  generate_dynamic_classes fs (generate_dynamic_classes fs lk)
  = generate_dynamic_classes fs lk.
Proof.
  destruct (generate_dynamic_classes_flag fs lk) as [[Hsf Heq]|Hflag].
  { by rewrite !Heq. }
  apply LocalConstants_eq.
  - destruct (generate_dynamic_classes_flag fs (generate_dynamic_classes fs lk))
      as [[_ Heq]|Hflag2]; [by rewrite Heq|]. by rewrite Hflag2, Hflag.
  - apply map_eq. intros name.
    rewrite (generate_dynamic_classes_lookup fs (generate_dynamic_classes fs lk)).
    rewrite generate_dynamic_classes_script_folders.
    destruct (dynamic_classes (generate_dynamic_classes fs lk) !! name)
      as [cls|] eqn:Hcls; [done|].
    rewrite generate_dynamic_classes_lookup in Hcls.
    by destruct (dynamic_classes lk !! name).
  - by rewrite !generate_dynamic_classes_script_folders.
Qed.

(* ===================================================================== *)
(** * The marker key and namespaces that are a prefix of it *)
(* ===================================================================== *)


